(** * AI-Music clients: session, API client and playback state

    A shallow embedding of the client-side logic of the AI-Music
    repository (mobile [AuthContext], [AudioContext], [ApiService],
    [HomeScreen] and the web [Auth] provider), with the properties its
    specification states about them.

    Conventions of the embedding.
    - Values that the TypeScript code handles at type [any] (response
      bodies of failed requests, list bodies) are JavaScript values
      [jsval]; objects are finite maps from property names to values.
      Numbers are the integers (ids, counters): fractional values and NaN
      do not occur in the properties below. Where the code computes with
      numbers ([+], [/], [Math.floor]) the result is the double the
      engine computes, see [round_double] and [js_div].
    - An [async] function is a state-passing computation over the React
      state it closes over, which can return or throw; [await] is
      sequencing. Every operation is read against the state of the render
      it is invoked in; the two playback toggles, which compute the new
      flag from the one their render captured, take that one as an
      argument, so that calls chained on one render are told from calls
      on successive renders.
    - The remote service and the device player are the environment: an
      operation takes, as arguments, the result of each request it issues.
    - The persistent key-value store ([AsyncStorage], [localStorage]) is a
      finite map from keys to strings whose operations do not fail. *)

From Stdlib Require Import ZArith.
From stdpp Require Import gmap strings list fin_maps pretty.

Set Warnings "-register-all".
Local Open Scope string_scope.
Local Open Scope Z_scope.

(** ** JavaScript values *)

Inductive jsval : Type :=
  | JUndefined
  | JNull
  | JBool (b : bool)
  | JNum (n : Z)
  | JStr (s : string)
  | JArr (l : list jsval)
  | JObj (m : gmap string jsval).

Abbreviation jsobj := (gmap string jsval).

(** [!!v]: the falsy values are [undefined], [null], [false], [0] and
    the empty string; arrays and objects are truthy, also when empty. *)
Definition truthy (v : jsval) : bool :=
  match v with
  | JUndefined | JNull => false
  | JBool b => b
  | JNum n => negb (n =? 0)
  | JStr s => match s with EmptyString => false | String _ _ => true end
  | JArr _ | JObj _ => true
  end.

(** [a || b] *)
Definition js_or (a b : jsval) : jsval := if truthy a then a else b.

(** [v?.k] for a property name [k] that is not a built-in property of
    strings, arrays or numbers (the program reads [detail], [message],
    [error], [results], [non_field_errors]). *)
Definition js_get (k : string) (v : jsval) : jsval :=
  match v with
  | JObj m => default JUndefined (m !! k)
  | _ => JUndefined
  end.

(** [v?.[0]] *)
Definition js_index0 (v : jsval) : jsval :=
  match v with
  | JArr l => default JUndefined (l !! 0%nat)
  | JStr (String c _) => JStr (String c EmptyString)
  | JObj m => default JUndefined (m !! "0")
  | _ => JUndefined
  end.

(** [String(v)]: an array is the comma-joined conversion of its elements,
    where [null] and [undefined] elements convert to the empty string. *)
Fixpoint js_to_string (v : jsval) : string :=
  match v with
  | JUndefined => "undefined"
  | JNull => "null"
  | JBool true => "true"
  | JBool false => "false"
  | JNum n => pretty n
  | JStr s => s
  | JArr l =>
      String.concat ","
        (List.map (fun x => match x with
                            | JUndefined | JNull => ""
                            | _ => js_to_string x
                            end) l)
  | JObj _ => "[object Object]"
  end.

(** ** Arithmetic on numbers

    A JavaScript number is a double. The integers up to [2^53] in
    absolute value are all doubles; above, the doubles of binary exponent
    [e] are [2^(e-52)] apart. An operation gives the double nearest to
    its exact result, a tie going to the even mantissa. *)

(** The integer nearest to [q + r/d], for [0 <= r < d], ties to even. *)
Definition round_half_even (q r d : Z) : Z :=
  if 2 * r <? d then q
  else if d <? 2 * r then q + 1
  else if Z.even q then q else q + 1.

(** The double nearest to the integer [v] (below the overflow threshold). *)
Definition round_double (v : Z) : Z :=
  let a := Z.abs v in
  if a <=? 2 ^ 53 then v
  else
    let ulp := 2 ^ (Z.log2 a - 52) in
    Z.sgn v * (round_half_even (a `div` ulp) (a `mod` ulp) ulp * ulp).

(** [a + b] on integer-valued doubles. *)
Definition js_add (a b : Z) : Z := round_double (a + b).

(** [a / b] on integer-valued doubles, [b] positive: the double nearest
    to the quotient, given as [(m, k)] for the value [m * 2^k], where [m]
    is the mantissa on 53 bits. *)
Definition js_div (a b : Z) : Z * Z :=
  if a =? 0 then (0, 0)
  else
    let n := Z.abs a in
    let e0 := Z.log2 n - Z.log2 b in
    let e := if b * 2 ^ Z.max 0 e0 <=? n * 2 ^ Z.max 0 (- e0)
             then e0 else e0 - 1 in
    let num := n * 2 ^ Z.max 0 (52 - e) in
    let den := b * 2 ^ Z.max 0 (e - 52) in
    (Z.sgn a * round_half_even (num `div` den) (num `mod` den) den, e - 52).

(** [Math.floor(x)] for a double [x = m * 2^k]. *)
Definition js_floor (x : Z * Z) : Z :=
  let '(m, k) := x in
  if 0 <=? k then m * 2 ^ k else m `div` 2 ^ (- k).

(** [String(n)] for an integer-valued double up to [2^53] in absolute
    value, where it is the decimal writing of [n]; a larger number is
    written with the shortest digits that read back to it, or with an
    exponent, which is not modelled ([None]). *)
Definition number_to_string (n : Z) : option string :=
  if Z.abs n <=? 2 ^ 53 then Some (pretty n) else None.

(** ** Errors *)

(** An [Error] object. *)
Record JsError : Type := { message : string }.

(** [new Error(v)] *)
Definition new_Error (v : jsval) : JsError :=
  {| message := match v with JUndefined => "" | _ => js_to_string v end |}.

Record AxiosResponse (A : Type) : Type := { status : Z; data : A }.
Arguments status {A} _.
Arguments data {A} _.

(** The error axios rejects with: [response] is set when the server
    answered with a status outside 2xx, [request] when the request was
    sent (so with [response] unset: no response was received). *)
Record AxiosError : Type := {
  err_response : option (AxiosResponse jsval);
  err_request : bool;
  err_message : string
}.

(** What a request made through axios settles to. *)
Inductive axios_result (A : Type) : Type :=
  | Resolved (response : AxiosResponse A)
  | Rejected (error : AxiosError).
Arguments Resolved {A} _.
Arguments Rejected {A} _.

(** What can be thrown and caught. *)
Inductive exn : Type :=
  | ExnError (e : JsError)
  | ExnAxios (e : AxiosError).

(** [error.message] *)
Definition exn_message (e : exn) : string :=
  match e with
  | ExnError e => message e
  | ExnAxios e => err_message e
  end.

(** [error.response?.data] *)
Definition exn_response_data (e : exn) : jsval :=
  match e with
  | ExnError _ => JUndefined
  | ExnAxios e =>
      match err_response e with
      | Some r => data r
      | None => JUndefined
      end
  end.

Inductive outcome (A : Type) : Type :=
  | Return (a : A)
  | Throw (e : exn).
Arguments Return {A} _.
Arguments Throw {A} _.

(** ** The API client (mobile [ApiService]) *)

Module ApiService.

Definition generic_message : string := "An error occurred".
Definition network_message : string :=
  "Network error - please check your connection".
Definition unexpected_message : string := "An unexpected error occurred".

Definition handleError (error : AxiosError) : JsError :=
  match err_response error with
  | Some response =>
      let message :=
        js_or (js_or (js_or (js_get "detail" (data response))
                            (js_get "message" (data response)))
                     (js_get "error" (data response)))
              (JStr generic_message) in
      new_Error message
  | None =>
      if err_request error then
        new_Error (JStr network_message)
      else
        new_Error (js_or (JStr (err_message error)) (JStr unexpected_message))
  end.

(** What [handleError] sees of the [TypeError] raised by reading a
    property of [null] or [undefined]: no [response], no [request], and
    the engine's message. *)
Definition type_error : AxiosError :=
  {| err_response := None; err_request := false;
     err_message := "Cannot read properties of null" |}.

(** [try { const response = await request; return f(response.data) }
     catch (error) { throw this.handleError(error) }], where [f] gives
    [None] when evaluating it raises a [TypeError]. *)
Definition request {A B : Type} (f : A -> option B) (r : axios_result A)
    : outcome B :=
  match r with
  | Resolved response =>
      match f (data response) with
      | Some b => Return b
      | None => Throw (ExnError (handleError type_error))
      end
  | Rejected error => Throw (ExnError (handleError error))
  end.

(** [response.data] *)
Definition body {A} (data : A) : option A := Some data.

(** [response.data.results || response.data] *)
Definition unwrap (data : jsval) : option jsval :=
  match data with
  | JUndefined | JNull => None
  | _ => Some (js_or (js_get "results" data) data)
  end.

Definition login {A} (r : axios_result A) : outcome A := request body r.
Definition register {A} (r : axios_result A) : outcome A := request body r.

(** [logout] catches the rejection and only logs it. *)
Definition logout {A} (r : axios_result A) : outcome unit :=
  match r with
  | Resolved _ => Return tt
  | Rejected _ => Return tt
  end.

Definition getUserProfile {A} (r : axios_result A) : outcome A := request body r.
Definition updateProfile {A} (r : axios_result A) : outcome A := request body r.

Definition getAIModels (r : axios_result jsval) : outcome jsval := request unwrap r.
Definition getModelRecommendations (r : axios_result jsval) : outcome jsval := request body r.
Definition generateComposition {A} (r : axios_result A) : outcome A := request body r.
Definition getGenerationRequests (r : axios_result jsval) : outcome jsval := request unwrap r.
Definition getGenerationStatus {A} (r : axios_result A) : outcome A := request body r.

Definition getCompositions (r : axios_result jsval) : outcome jsval := request unwrap r.
Definition getGenres (r : axios_result jsval) : outcome jsval := request unwrap r.
Definition likeComposition {A} (r : axios_result A) : outcome A := request body r.

Definition getTracks (r : axios_result jsval) : outcome jsval := request unwrap r.
Definition getRecommendations (r : axios_result jsval) : outcome jsval := request unwrap r.
Definition getTrendingTracks (r : axios_result jsval) : outcome jsval := request unwrap r.
Definition searchTracks (r : axios_result jsval) : outcome jsval := request unwrap r.
Definition playTrack {A} (r : axios_result A) : outcome A := request body r.

Definition getUserFeed (r : axios_result jsval) : outcome jsval := request unwrap r.
Definition followUser {A} (r : axios_result A) : outcome A := request body r.
Definition getUsers (r : axios_result jsval) : outcome jsval := request unwrap r.

(** The methods declared to return a list ([Promise<any[]>]). *)
Inductive list_method : Type :=
  | GetAIModels | GetModelRecommendations | GetGenerationRequests
  | GetCompositions | GetGenres | GetTracks | GetRecommendations
  | GetTrendingTracks | SearchTracks | GetUserFeed | GetUsers.

Definition call (m : list_method) : axios_result jsval -> outcome jsval :=
  match m with
  | GetAIModels => getAIModels
  | GetModelRecommendations => getModelRecommendations
  | GetGenerationRequests => getGenerationRequests
  | GetCompositions => getCompositions
  | GetGenres => getGenres
  | GetTracks => getTracks
  | GetRecommendations => getRecommendations
  | GetTrendingTracks => getTrendingTracks
  | SearchTracks => searchTracks
  | GetUserFeed => getUserFeed
  | GetUsers => getUsers
  end.

(** The methods that return the body of the response as it is, at
    whatever type the caller reads it. *)
Inductive body_method : Type :=
  | Login | Register | GetUserProfile | UpdateProfile | GenerateComposition
  | GetGenerationStatus | LikeComposition | PlayTrack | FollowUser.

Definition call_body {A : Type} (m : body_method)
    : axios_result A -> outcome A :=
  match m with
  | Login => login
  | Register => register
  | GetUserProfile => getUserProfile
  | UpdateProfile => updateProfile
  | GenerateComposition => generateComposition
  | GetGenerationStatus => getGenerationStatus
  | LikeComposition => likeComposition
  | PlayTrack => playTrack
  | FollowUser => followUser
  end.

End ApiService.

(** ** Computations over a state that return or throw *)

Section Eff.
Context {W : Type}.

Definition Eff (A : Type) : Type := W -> outcome A * W.

Definition ret {A} (a : A) : Eff A := fun w => (Return a, w).
Definition throw {A} (e : exn) : Eff A := fun w => (Throw e, w).
Definition lift {A} (o : outcome A) : Eff A := fun w => (o, w).
Definition gets {A} (f : W -> A) : Eff A := fun w => (Return (f w), w).
Definition modify (f : W -> W) : Eff unit := fun w => (Return tt, f w).

Definition bind {A B} (m : Eff A) (k : A -> Eff B) : Eff B :=
  fun w =>
    match m w with
    | (Return a, w') => k a w'
    | (Throw e, w') => (Throw e, w')
    end.

(** [try { m } catch (error) { h error }] *)
Definition try_catch {A} (m : Eff A) (h : exn -> Eff A) : Eff A :=
  fun w =>
    match m w with
    | (Return a, w') => (Return a, w')
    | (Throw e, w') => h e w'
    end.

(** [try { m } finally { f }]: [f] runs on both exits; the outcome is
    that of [m] unless [f] throws. *)
Definition try_finally {A} (m : Eff A) (f : Eff unit) : Eff A :=
  fun w =>
    let '(o, w') := m w in
    match f w' with
    | (Return _, w'') => (o, w'')
    | (Throw e, w'') => (Throw e, w'')
    end.
End Eff.
Arguments Eff W A : clear implicits.

(** A handler that closes over the state of the render that created it,
    invoked through the value of the current render. *)
Definition rendered {W A : Type} (handler : W -> Eff W A) : Eff W A :=
  fun w => handler w w.

Notation "x <- m ;; k" := (bind m (fun x => k))
  (at level 100, m at next level, right associativity).
Notation "m ;; k" := (bind m (fun _ => k))
  (at level 100, right associativity).

(** [!!t] for a [string | null]. *)
Definition str_truthy (t : option string) : bool :=
  match t with
  | Some (String _ _) => true
  | _ => false
  end.

(** The body of a successful login or register response, at the fields
    the providers destructure. *)
Record LoginResponse : Type := {
  resp_token : string;
  resp_user_id : jsval;
  resp_username : jsval
}.

(** [{ ...base, ...extra }]: the properties of [extra] are copied over
    those of [base]. *)
Definition spread (base extra : jsobj) : jsobj := extra ∪ base.

(** [o?.k] for an object or [null]. *)
Definition field (k : string) (o : option jsobj) : jsval :=
  match o with
  | Some m => default JUndefined (m !! k)
  | None => JUndefined
  end.

(** ** The mobile session manager ([AuthContext.tsx]) *)

Module AuthContext.

Record State : Type := {
  user : option jsobj;
  token : option string;
  loading : bool;
  storage : gmap string string   (* AsyncStorage *)
}.

Definition setUser (u : option jsobj) : Eff State unit :=
  modify (fun w => {| user := u; token := token w;
                      loading := loading w; storage := storage w |}).
Definition setToken (t : option string) : Eff State unit :=
  modify (fun w => {| user := user w; token := t;
                      loading := loading w; storage := storage w |}).
Definition setLoading (b : bool) : Eff State unit :=
  modify (fun w => {| user := user w; token := token w;
                      loading := b; storage := storage w |}).

Definition getItem (k : string) : Eff State (option string) :=
  gets (fun w => storage w !! k).
Definition setItem (k v : string) : Eff State unit :=
  modify (fun w => {| user := user w; token := token w;
                      loading := loading w; storage := <[k := v]> (storage w) |}).
Definition removeItem (k : string) : Eff State unit :=
  modify (fun w => {| user := user w; token := token w;
                      loading := loading w; storage := delete k (storage w) |}).

(** The provider as first rendered over a given store. *)
Definition mount (store : gmap string string) : State :=
  {| user := None; token := None; loading := true; storage := store |}.

Definition isAuthenticated (w : State) : bool :=
  str_truthy (token w) && bool_decide (is_Some (user w)).

Definition loadStoredAuth (profile : axios_result jsobj) : Eff State unit :=
  try_finally
    (try_catch
       (storedToken <- getItem "auth_token" ;;
        if str_truthy storedToken then
          setToken storedToken ;;
          userProfile <- lift (ApiService.getUserProfile profile) ;;
          setUser (Some userProfile)
        else ret tt)
       (fun error => removeItem "auth_token"))
    (setLoading false).

Definition login (login_r : axios_result LoginResponse)
    (profile : axios_result jsobj) : Eff State unit :=
  try_catch
    (response <- lift (ApiService.login login_r) ;;
     let authToken := resp_token response in
     let user_id := resp_user_id response in
     let returnedUsername := resp_username response in
     setToken (Some authToken) ;;
     setItem "auth_token" authToken ;;
     userProfile <- lift (ApiService.getUserProfile profile) ;;
     setUser (Some (spread {[ "id" := user_id; "username" := returnedUsername ]}
                           userProfile)))
    (fun error =>
       throw (ExnError (new_Error
         (js_or (JStr (exn_message error)) (JStr "Login failed"))))).

Definition register (register_r : axios_result LoginResponse)
    (profile : axios_result jsobj) : Eff State unit :=
  try_catch
    (response <- lift (ApiService.register register_r) ;;
     let authToken := resp_token response in
     let user_id := resp_user_id response in
     let username := resp_username response in
     setToken (Some authToken) ;;
     setItem "auth_token" authToken ;;
     userProfile <- lift (ApiService.getUserProfile profile) ;;
     setUser (Some (spread {[ "id" := user_id; "username" := username ]}
                           userProfile)))
    (fun error =>
       throw (ExnError (new_Error
         (js_or (JStr (exn_message error)) (JStr "Registration failed"))))).

Definition logout (logout_r : axios_result jsval) : Eff State unit :=
  try_finally
    (try_catch
       (token <- gets token ;;
        if str_truthy token then lift (ApiService.logout logout_r)
        else ret tt)
       (fun error => ret tt))
    (setUser None ;;
     setToken None ;;
     removeItem "auth_token").

Definition updateProfile (update_r : axios_result jsval) : Eff State unit :=
  token <- gets token ;;
  if negb (str_truthy token) then
    throw (ExnError (new_Error (JStr "Not authenticated")))
  else
    try_catch
      (updatedProfile <- lift (ApiService.updateProfile update_r) ;;
       prev <- gets user ;;
       setUser (match prev with
                | Some prev => Some (<["profile" := updatedProfile]> prev)
                | None => None
                end))
      (fun error =>
         throw (ExnError (new_Error
           (js_or (JStr (exn_message error)) (JStr "Profile update failed"))))).

End AuthContext.

(** ** The web session manager ([Auth.tsx]) *)

Module Auth.

Record State : Type := {
  user : option jsobj;
  token : option string;
  storage : gmap string string   (* localStorage *)
}.

Definition setUser (u : option jsobj) : Eff State unit :=
  modify (fun w => {| user := u; token := token w; storage := storage w |}).
Definition setToken (t : option string) : Eff State unit :=
  modify (fun w => {| user := user w; token := t; storage := storage w |}).
Definition setItem (k v : string) : Eff State unit :=
  modify (fun w => {| user := user w; token := token w;
                      storage := <[k := v]> (storage w) |}).
Definition removeItem (k : string) : Eff State unit :=
  modify (fun w => {| user := user w; token := token w;
                      storage := delete k (storage w) |}).

(** [useState(localStorage.getItem('auth_token'))] *)
Definition mount (store : gmap string string) : State :=
  {| user := None; token := store !! "auth_token"; storage := store |}.

Definition isAuthenticated (w : State) : bool :=
  str_truthy (token w) && bool_decide (is_Some (user w)).

(** [await axios.get/post(...)] *)
Definition axios {A} (r : axios_result A) : Eff State (AxiosResponse A) :=
  match r with
  | Resolved response => ret response
  | Rejected error => throw (ExnAxios error)
  end.

(** [axios.post(...).catch(() => {})], not awaited. *)
Definition axios_ignored {A} (r : axios_result A) : Eff State unit :=
  match r with
  | Resolved _ => ret tt
  | Rejected _ => ret tt
  end.

Definition login (login_r : axios_result LoginResponse)
    (profile : axios_result jsobj) : Eff State unit :=
  try_catch
    (response <- axios login_r ;;
     let authToken := resp_token (data response) in
     let user_id := resp_user_id (data response) in
     let returnedUsername := resp_username (data response) in
     setToken (Some authToken) ;;
     setItem "auth_token" authToken ;;
     profileResponse <- axios profile ;;
     setUser (Some {[ "id" := user_id;
                      "username" := returnedUsername;
                      "email" := field "email" (Some (data profileResponse));
                      "profile" := JObj (data profileResponse) ]}))
    (fun error =>
       throw (ExnError (new_Error
         (js_or (js_index0 (js_get "non_field_errors" (exn_response_data error)))
                (JStr "Login failed"))))).

Definition logout (logout_r : axios_result jsval) : Eff State unit :=
  token <- gets token ;;
  (if str_truthy token then axios_ignored logout_r else ret tt) ;;
  setUser None ;;
  setToken None ;;
  removeItem "auth_token".

(** The effect [Load user on token change] of [AuthProvider]. *)
Definition loadUser (profile : axios_result jsobj)
    (logout_r : axios_result jsval) : Eff State unit :=
  token <- gets token ;;
  user <- gets user ;;
  if str_truthy token && negb (bool_decide (is_Some user)) then
    match profile with
    | Resolved response =>
        setUser (Some {[ "id" := js_or (field "id" (Some (data response))) (JNum 0);
                         "username" := js_or (field "username" (Some (data response))) (JStr "");
                         "email" := js_or (field "email" (Some (data response))) (JStr "");
                         "profile" := JObj (data response) ]})
    | Rejected _ => logout logout_r
    end
  else ret tt.

(** The fields of the registration form ([userData]). *)
Record RegisterData : Type := {
  username : string;
  email : string;
  password : string;
  password_confirm : string;
  first_name : string;
  last_name : string
}.

(** [error.response?.data?.k?.[0]] *)
Definition first_error (k : string) (error : exn) : jsval :=
  js_index0 (js_get k (exn_response_data error)).

Definition register (userData : RegisterData)
    (register_r : axios_result LoginResponse)
    (profile : axios_result jsobj) : Eff State unit :=
  try_catch
    (response <- axios register_r ;;
     let authToken := resp_token (data response) in
     let user_id := resp_user_id (data response) in
     let username := resp_username (data response) in
     setToken (Some authToken) ;;
     setItem "auth_token" authToken ;;
     profileResponse <- axios profile ;;
     setUser (Some {[ "id" := user_id;
                      "username" := username;
                      "email" := JStr (email userData);
                      "profile" := JObj (data profileResponse) ]}))
    (fun error =>
       let errorMsg :=
         js_or (js_or (js_or (first_error "username" error)
                             (first_error "email" error))
                      (first_error "password" error))
               (JStr "Registration failed") in
       throw (ExnError (new_Error errorMsg))).

Definition updateProfile (update_r : axios_result jsval) : Eff State unit :=
  token <- gets token ;;
  if negb (str_truthy token) then
    throw (ExnError (new_Error (JStr "Not authenticated")))
  else
    try_catch
      (response <- axios update_r ;;
       prev <- gets user ;;
       setUser (match prev with
                | Some prev => Some (<["profile" := data response]> prev)
                | None => None
                end))
      (fun error =>
         throw (ExnError (new_Error
           (js_or (js_get "detail" (exn_response_data error))
                  (JStr "Profile update failed"))))).

(** *** [login] together with the effect it triggers

    [setToken] in [login] re-renders the provider, and the user-loading
    effect of that render runs while [login] awaits its profile request.
    [login] is cut at that [await]. *)

(** The [try] block of [login] up to its profile request. *)
Definition login_start (login_r : axios_result LoginResponse)
    : Eff State (AxiosResponse LoginResponse) :=
  response <- axios login_r ;;
  let authToken := resp_token (data response) in
  setToken (Some authToken) ;;
  setItem "auth_token" authToken ;;
  ret response.

(** The rest of the [try] block, run when the profile request settles. *)
Definition login_finish (response : AxiosResponse LoginResponse)
    (profile : axios_result jsobj) : Eff State unit :=
  let user_id := resp_user_id (data response) in
  let returnedUsername := resp_username (data response) in
  profileResponse <- axios profile ;;
  setUser (Some {[ "id" := user_id;
                   "username" := returnedUsername;
                   "email" := field "email" (Some (data profileResponse));
                   "profile" := JObj (data profileResponse) ]}).

(** The [catch] block of [login]. *)
Definition login_catch (error : exn) : Eff State unit :=
  throw (ExnError (new_Error
    (js_or (js_index0 (js_get "non_field_errors" (exn_response_data error)))
           (JStr "Login failed")))).

(** Whether the render that follows [setToken authToken], from the state
    [w] in which [login] was called, runs the effect and issues its
    request: the token has changed, is truthy, and there is no user. *)
Definition effect_fires (authToken : string) (w : State) : bool :=
  negb (bool_decide (token w = Some authToken))
  && str_truthy (Some authToken)
  && negb (bool_decide (is_Some (user w))).

(** What the effect does when its own profile request settles. *)
Definition effect_settles (profile : axios_result jsobj)
    (logout_r : axios_result jsval) : Eff State unit :=
  match profile with
  | Resolved response =>
      setUser (Some {[ "id" := js_or (field "id" (Some (data response))) (JNum 0);
                       "username" := js_or (field "username" (Some (data response))) (JStr "");
                       "email" := js_or (field "email" (Some (data response))) (JStr "");
                       "profile" := JObj (data response) ]})
  | Rejected _ => logout logout_r
  end.

(** [login] and the effect it triggers, until both have settled:
    [effect_first] tells which of the two profile requests settles
    first. The outcome is that of [login]. *)
Definition login_settled (login_r : axios_result LoginResponse)
    (profile effect_profile : axios_result jsobj)
    (logout_r : axios_result jsval) (effect_first : bool)
    : Eff State unit :=
  fun w =>
    match login_r with
    | Rejected _ => login login_r profile w
    | Resolved response =>
        if effect_fires (resp_token (data response)) w then
          if effect_first then
            try_catch
              (response <- login_start login_r ;;
               effect_settles effect_profile logout_r ;;
               login_finish response profile)
              login_catch w
          else
            try_finally
              (try_catch
                 (response <- login_start login_r ;;
                  login_finish response profile)
                 login_catch)
              (effect_settles effect_profile logout_r) w
        else login login_r profile w
    end.

End Auth.

(** ** The web forms ([LoginForm], [RegisterForm] of [Auth.tsx]) *)

Module AuthForms.

(** The state of a form together with the provider it uses; [successes]
    counts the calls of [onSuccess]. *)
Record State : Type := {
  auth : Auth.State;
  error : string;
  loading : bool;
  successes : nat
}.

Definition setError (e : string) : Eff State unit :=
  modify (fun w => {| auth := auth w; error := e;
                      loading := loading w; successes := successes w |}).
Definition setLoading (b : bool) : Eff State unit :=
  modify (fun w => {| auth := auth w; error := error w;
                      loading := b; successes := successes w |}).
Definition onSuccess : Eff State unit :=
  modify (fun w => {| auth := auth w; error := error w;
                      loading := loading w; successes := S (successes w) |}).

(** A provider operation run from the form. *)
Definition useAuth {A} (m : Eff Auth.State A) : Eff State A :=
  fun w =>
    let '(o, a) := m (auth w) in
    (o, {| auth := a; error := error w;
           loading := loading w; successes := successes w |}).

(** [LoginForm.handleSubmit] *)
Definition login_handleSubmit (login_r : axios_result LoginResponse)
    (profile : axios_result jsobj) : Eff State unit :=
  setError "" ;;
  setLoading true ;;
  try_finally
    (try_catch
       (useAuth (Auth.login login_r profile) ;;
        onSuccess)
       (fun err => setError (exn_message err)))
    (setLoading false).

(** [RegisterForm.handleSubmit] *)
Definition register_handleSubmit (formData : Auth.RegisterData)
    (register_r : axios_result LoginResponse)
    (profile : axios_result jsobj) : Eff State unit :=
  setError "" ;;
  setLoading true ;;
  if negb (String.eqb (Auth.password formData) (Auth.password_confirm formData))
  then
    setError "Passwords don't match" ;;
    setLoading false
  else
    try_finally
      (try_catch
         (useAuth (Auth.register formData register_r profile) ;;
          onSuccess)
         (fun err => setError (exn_message err)))
      (setLoading false).

End AuthForms.

(** ** The playback controller ([AudioContext]) *)

Module RepeatMode.
Inductive t : Type := Off | Track | Queue.
End RepeatMode.

Module AudioContext.

Record Track : Type := {
  id : string;
  url : string;
  title : string;
  artist : string;
  duration : Z
}.

(** The device player, a process-wide singleton: its queue, in playback
    order, and its repeat mode. *)
Record Player : Type := {
  queue : list Track;
  repeat : RepeatMode.t
}.

Record State : Type := {
  currentTrack : option Track;
  isPlaying : bool;
  playlist : list Track;
  shuffle : bool;
  repeatMode : RepeatMode.t;
  player : Player
}.

Definition setCurrentTrack (t : option Track) : Eff State unit :=
  modify (fun w => {| currentTrack := t; isPlaying := isPlaying w;
                      playlist := playlist w; shuffle := shuffle w;
                      repeatMode := repeatMode w; player := player w |}).
Definition setPlaylistState (f : list Track -> list Track) : Eff State unit :=
  modify (fun w => {| currentTrack := currentTrack w; isPlaying := isPlaying w;
                      playlist := f (playlist w); shuffle := shuffle w;
                      repeatMode := repeatMode w; player := player w |}).
Definition setShuffle (b : bool) : Eff State unit :=
  modify (fun w => {| currentTrack := currentTrack w; isPlaying := isPlaying w;
                      playlist := playlist w; shuffle := b;
                      repeatMode := repeatMode w; player := player w |}).
Definition setRepeatModeState (m : RepeatMode.t) : Eff State unit :=
  modify (fun w => {| currentTrack := currentTrack w; isPlaying := isPlaying w;
                      playlist := playlist w; shuffle := shuffle w;
                      repeatMode := m; player := player w |}).
Definition setPlayer (f : Player -> Player) : Eff State unit :=
  modify (fun w => {| currentTrack := currentTrack w; isPlaying := isPlaying w;
                      playlist := playlist w; shuffle := shuffle w;
                      repeatMode := repeatMode w; player := f (player w) |}).

(** A call into the device player resolves ([None]) or rejects with an
    error, leaving the player as it was. *)
Definition player_result : Type := option JsError.

Definition player_call (r : player_result) (f : Player -> Player)
    : Eff State unit :=
  match r with
  | None => setPlayer f
  | Some e => throw (ExnError e)
  end.

Module TrackPlayer.
Definition reset (r : player_result) : Eff State unit :=
  player_call r (fun p => {| queue := []; repeat := repeat p |}).
Definition add (r : player_result) (tracks : list Track) : Eff State unit :=
  player_call r (fun p => {| queue := (queue p ++ tracks)%list; repeat := repeat p |}).
Definition setRepeatMode (r : player_result) (m : RepeatMode.t)
    : Eff State unit :=
  player_call r (fun p => {| queue := queue p; repeat := m |}).
(** Transport calls: they change neither the queue nor the repeat mode
    of the device player. *)
Definition play (r : player_result) : Eff State unit :=
  player_call r (fun p => p).
Definition pause (r : player_result) : Eff State unit :=
  player_call r (fun p => p).
Definition stop (r : player_result) : Eff State unit :=
  player_call r (fun p => p).
Definition skipToNext (r : player_result) : Eff State unit :=
  player_call r (fun p => p).
Definition skipToPrevious (r : player_result) : Eff State unit :=
  player_call r (fun p => p).
Definition seekTo (r : player_result) (position : Z) : Eff State unit :=
  player_call r (fun p => p).

(** [getTrack(index)]: the track at that place of the queue, if any. *)
Definition getTrack (r : player_result) (index : nat)
    : Eff State (option Track) :=
  match r with
  | None => gets (fun w => queue (player w) !! index)
  | Some e => throw (ExnError e)
  end.
End TrackPlayer.

(** [console.error(...)] *)
Definition console_error (error : exn) : Eff State unit := ret tt.

Definition setPlaylist (reset_r add_r : player_result) (tracks : list Track)
    : Eff State unit :=
  try_catch
    (TrackPlayer.reset reset_r ;;
     TrackPlayer.add add_r tracks ;;
     setPlaylistState (fun _ => tracks) ;;
     if (0 <? length tracks)%nat then
       setCurrentTrack (tracks !! 0%nat)
     else ret tt)
    console_error.

Definition addToPlaylist (add_r : player_result) (track : Track)
    : Eff State unit :=
  try_catch
    (TrackPlayer.add add_r [track] ;;
     setPlaylistState (fun prev => (prev ++ [track])%list))
    console_error.

(** [toggleShuffle] and [toggleRepeat] read the [shuffle] and
    [repeatMode] of the render that created them: these are arguments. *)
Definition toggleShuffle (shuffle : bool) : Eff State unit :=
  try_catch
    (let newShuffleState := negb shuffle in
     setShuffle newShuffleState)
    console_error.

Definition toggleRepeat (repeatMode : RepeatMode.t) (set_r : player_result)
    : Eff State unit :=
  try_catch
    (let newRepeatMode :=
       match repeatMode with
       | RepeatMode.Off => RepeatMode.Track
       | RepeatMode.Track => RepeatMode.Queue
       | RepeatMode.Queue => RepeatMode.Off
       end in
     TrackPlayer.setRepeatMode set_r newRepeatMode ;;
     setRepeatModeState newRepeatMode)
    console_error.

(** The two handlers invoked through the context value of the current
    render, as after a re-render that followed the last state change. *)
Definition toggleShuffle_now : Eff State unit :=
  rendered (fun w => toggleShuffle (shuffle w)).
Definition toggleRepeat_now (set_r : player_result) : Eff State unit :=
  rendered (fun w => toggleRepeat (repeatMode w) set_r).

(** The repeat mode shown after running [m] from [w]. *)
Definition mode_after (m : Eff State unit) (w : State) : RepeatMode.t :=
  repeatMode (snd (m w)).

Definition setIsPlaying (b : bool) : Eff State unit :=
  modify (fun w => {| currentTrack := currentTrack w; isPlaying := b;
                      playlist := playlist w; shuffle := shuffle w;
                      repeatMode := repeatMode w; player := player w |}).

(** The playback states the device player reports ([State]). *)
Module PlaybackState.
Inductive t : Type :=
  | None_ | Ready | Playing | Paused | Stopped | Buffering | Connecting.
End PlaybackState.

(** The listener of [Event.PlaybackState]. *)
Definition onPlaybackState (state : PlaybackState.t) : Eff State unit :=
  match state with
  | PlaybackState.Playing => setIsPlaying true
  | _ => setIsPlaying false
  end.

(** The listener of [Event.PlaybackTrackChanged]; it has no [catch]. *)
Definition onPlaybackTrackChanged (nextTrack : option nat)
    (get_r : player_result) : Eff State unit :=
  match nextTrack with
  | Some index =>
      track <- TrackPlayer.getTrack get_r index ;;
      setCurrentTrack track
  | None => ret tt
  end.

Definition playTrack (reset_r add_r play_r : player_result) (track : Track)
    : Eff State unit :=
  try_catch
    (TrackPlayer.reset reset_r ;;
     TrackPlayer.add add_r [track] ;;
     TrackPlayer.play play_r ;;
     setCurrentTrack (Some track))
    console_error.

Definition pauseTrack (pause_r : player_result) : Eff State unit :=
  try_catch (TrackPlayer.pause pause_r) console_error.

Definition resumeTrack (play_r : player_result) : Eff State unit :=
  try_catch (TrackPlayer.play play_r) console_error.

Definition stopTrack (stop_r : player_result) : Eff State unit :=
  try_catch
    (TrackPlayer.stop stop_r ;;
     setCurrentTrack None)
    console_error.

Definition skipToNext (skip_r : player_result) : Eff State unit :=
  try_catch (TrackPlayer.skipToNext skip_r) console_error.

Definition skipToPrevious (skip_r : player_result) : Eff State unit :=
  try_catch (TrackPlayer.skipToPrevious skip_r) console_error.

Definition seekTo (seek_r : player_result) (position : Z) : Eff State unit :=
  try_catch (TrackPlayer.seekTo seek_r position) console_error.

End AudioContext.

(** ** The home screen ([HomeScreen]): liking a composition *)

Module HomeScreen.

Record Composition : Type := {
  id : Z;
  title : string;
  user_username : string;
  genre_name : option string;
  duration : Z;
  tempo : Z;
  key_signature : string;
  like_count : Z;
  play_count : Z;
  created_at : string;
  audio_file : option string
}.

Record State : Type := {
  token : option string;              (* from [useAuth] *)
  compositions : list Composition;
  alerts : list (string * string)     (* [Alert.alert(title, message)] *)
}.

Definition setCompositions (f : list Composition -> list Composition)
    : Eff State unit :=
  modify (fun w => {| token := token w; compositions := f (compositions w);
                      alerts := alerts w |}).

Definition alert (title message : string) : Eff State unit :=
  modify (fun w => {| token := token w; compositions := compositions w;
                      alerts := (alerts w ++ [(title, message)])%list |}).

(** [{ ...comp, like_count: comp.like_count + 1 }] *)
Definition liked (comp : Composition) : Composition :=
  {| id := id comp; title := title comp; user_username := user_username comp;
     genre_name := genre_name comp; duration := duration comp;
     tempo := tempo comp; key_signature := key_signature comp;
     like_count := js_add (like_count comp) 1;
     play_count := play_count comp; created_at := created_at comp;
     audio_file := audio_file comp |}.

Definition handleLikeComposition (compositionId : Z)
    (like_r : axios_result jsval) : Eff State unit :=
  token <- gets token ;;
  if negb (str_truthy token) then
    alert "Authentication Required" "Please log in to like compositions."
  else
    try_catch
      (lift (ApiService.likeComposition like_r) ;;
       setCompositions (fun prev =>
         (fun comp => if id comp =? compositionId then liked comp else comp)
           <$> prev))
      (fun error =>
         alert "Error"
           (js_to_string (js_or (JStr (exn_message error))
                                (JStr "Failed to like composition")))).

(** [s.padStart(n, '0')] *)
Definition padStart0 (n : nat) (s : string) : string :=
  String.concat "" (replicate (n - String.length s) "0") +:+ s.

(** [formatDuration] on a whole number of seconds: the quotient is
    rounded to a double before [Math.floor] rounds it down, [%] is exact
    and takes the sign of [seconds]; the result is [None] where the
    writing of the minutes is not modelled. *)
Definition formatDuration (seconds : Z) : option string :=
  let minutes := js_floor (js_div seconds 60) in
  let remainingSeconds := seconds `rem` 60 in
  m ← number_to_string minutes;
  r ← number_to_string remainingSeconds;
  Some (m +:+ ":" +:+ padStart0 2 r).

End HomeScreen.

(** ** The home screen playing a composition ([handlePlayComposition]) *)

Module HomePlayer.

(** The screen with the playback controller it uses. *)
Record State : Type := {
  home : HomeScreen.State;
  audio : AudioContext.State
}.

Definition useHome {A} (m : Eff HomeScreen.State A) : Eff State A :=
  fun w => let '(o, h) := m (home w) in (o, {| home := h; audio := audio w |}).
Definition useAudio {A} (m : Eff AudioContext.State A) : Eff State A :=
  fun w => let '(o, a) := m (audio w) in (o, {| home := home w; audio := a |}).

Definition handlePlayComposition (composition : HomeScreen.Composition)
    (reset_r add_r play_r : AudioContext.player_result)
    (record_r : axios_result jsval) : Eff State unit :=
  try_catch
    (if str_truthy (HomeScreen.audio_file composition) then
       let track :=
         {| AudioContext.id := pretty (HomeScreen.id composition);
            AudioContext.url := default "" (HomeScreen.audio_file composition);
            AudioContext.title := HomeScreen.title composition;
            AudioContext.artist := HomeScreen.user_username composition;
            AudioContext.duration := HomeScreen.duration composition |} in
       useAudio (AudioContext.playTrack reset_r add_r play_r track) ;;
       token <- useHome (gets HomeScreen.token) ;;
       if str_truthy token then
         lift (ApiService.playTrack record_r) ;;
         ret tt
       else ret tt
     else
       useHome (HomeScreen.alert "Audio Not Available"
                  "This composition does not have an audio file yet."))
    (fun error =>
       useHome (HomeScreen.alert "Playback Error"
                  (js_to_string (js_or (JStr (exn_message error))
                                       (JStr "Failed to play composition"))))).

End HomePlayer.

(** ** Notions of the specification *)

Ltac eff_unfold :=
  unfold bind, ret, throw, lift, gets, modify, try_catch, try_finally.

(** The message the specification describes for a response outside 2xx:
    the first of the fields [detail], [message], [error] of the body that
    is present, where a field is present when it holds a truthy value,
    else the generic message. *)
Definition message_fields : list string := ["detail"; "message"; "error"].

Fixpoint first_present (fields : list string) (body : jsval) : option jsval :=
  match fields with
  | [] => None
  | k :: fields =>
      if truthy (js_get k body) then Some (js_get k body)
      else first_present fields body
  end.

Definition spec_message (body : jsval) : string :=
  match first_present message_fields body with
  | Some v => js_to_string v
  | None => ApiService.generic_message
  end.

(** The cycle of repeat modes: off → track → queue → off. *)
Inductive repeat_cycle : RepeatMode.t -> RepeatMode.t -> Prop :=
  | cycle_off : repeat_cycle RepeatMode.Off RepeatMode.Track
  | cycle_track : repeat_cycle RepeatMode.Track RepeatMode.Queue
  | cycle_queue : repeat_cycle RepeatMode.Queue RepeatMode.Off.

(** Two compositions that agree on every field but [like_count]. *)
Definition same_but_likes (c c' : HomeScreen.Composition) : Prop :=
  HomeScreen.id c' = HomeScreen.id c
  /\ HomeScreen.title c' = HomeScreen.title c
  /\ HomeScreen.user_username c' = HomeScreen.user_username c
  /\ HomeScreen.genre_name c' = HomeScreen.genre_name c
  /\ HomeScreen.duration c' = HomeScreen.duration c
  /\ HomeScreen.tempo c' = HomeScreen.tempo c
  /\ HomeScreen.key_signature c' = HomeScreen.key_signature c
  /\ HomeScreen.play_count c' = HomeScreen.play_count c
  /\ HomeScreen.created_at c' = HomeScreen.created_at c
  /\ HomeScreen.audio_file c' = HomeScreen.audio_file c.


(** [error.response?.data?.non_field_errors?.[0]] *)
Definition first_non_field_error (error : AxiosError) : jsval :=
  js_index0 (js_get "non_field_errors" (exn_response_data (ExnAxios error))).

(** The first truthy value of a list, as a chain of [||] selects it. *)
Fixpoint first_truthy (vs : list jsval) : option jsval :=
  match vs with
  | [] => None
  | v :: vs => if truthy v then Some v else first_truthy vs
  end.

(** The in-memory token agrees with the persisted one. *)
Definition token_synced (w : AuthContext.State) : Prop :=
  AuthContext.token w = AuthContext.storage w !! "auth_token".

(** One operation of the mobile session manager, on any results of the
    requests it issues; restoring is taken with a profile request that
    succeeds. *)
Inductive session_step : AuthContext.State -> AuthContext.State -> Prop :=
  | step_login login_r profile w :
      session_step w (snd (AuthContext.login login_r profile w))
  | step_register register_r profile w :
      session_step w (snd (AuthContext.register register_r profile w))
  | step_logout logout_r w :
      session_step w (snd (AuthContext.logout logout_r w))
  | step_updateProfile update_r w :
      session_step w (snd (AuthContext.updateProfile update_r w))
  | step_restore response w :
      session_step w (snd (AuthContext.loadStoredAuth (Resolved response) w)).

(** One operation of the web session manager, on any results of the
    requests it issues. *)
Inductive web_step : Auth.State -> Auth.State -> Prop :=
  | web_login login_r profile w :
      web_step w (snd (Auth.login login_r profile w))
  | web_register userData register_r profile w :
      web_step w (snd (Auth.register userData register_r profile w))
  | web_logout logout_r w :
      web_step w (snd (Auth.logout logout_r w))
  | web_updateProfile update_r w :
      web_step w (snd (Auth.updateProfile update_r w))
  | web_loadUser profile logout_r w :
      web_step w (snd (Auth.loadUser profile logout_r w)).

(** The playlist state agrees with the queue of the device player. *)
Definition queue_synced (w : AudioContext.State) : Prop :=
  AudioContext.playlist w = AudioContext.queue (AudioContext.player w).

(** One operation of the playback controller other than [playTrack], on
    any result of its calls into the device player (the toggles through
    the handler of any render), except that
    [setPlaylist] is taken with a reset and an add that both resolve or
    with a reset that is rejected; and the two event listeners, the track
    listener with a [getTrack] that resolves. *)
Inductive playback_step : AudioContext.State -> AudioContext.State -> Prop :=
  | step_setPlaylist tracks w :
      playback_step w (snd (AudioContext.setPlaylist None None tracks w))
  | step_setPlaylist_rejected e add_r tracks w :
      playback_step w (snd (AudioContext.setPlaylist (Some e) add_r tracks w))
  | step_addToPlaylist r track w :
      playback_step w (snd (AudioContext.addToPlaylist r track w))
  | step_toggleShuffle captured w :
      playback_step w (snd (AudioContext.toggleShuffle captured w))
  | step_toggleRepeat captured r w :
      playback_step w (snd (AudioContext.toggleRepeat captured r w))
  | step_pauseTrack r w :
      playback_step w (snd (AudioContext.pauseTrack r w))
  | step_resumeTrack r w :
      playback_step w (snd (AudioContext.resumeTrack r w))
  | step_stopTrack r w :
      playback_step w (snd (AudioContext.stopTrack r w))
  | step_skipToNext r w :
      playback_step w (snd (AudioContext.skipToNext r w))
  | step_skipToPrevious r w :
      playback_step w (snd (AudioContext.skipToPrevious r w))
  | step_seekTo r position w :
      playback_step w (snd (AudioContext.seekTo r position w))
  | step_onPlaybackState state w :
      playback_step w (snd (AudioContext.onPlaybackState state w))
  | step_onPlaybackTrackChanged nextTrack w :
      playback_step w
        (snd (AudioContext.onPlaybackTrackChanged nextTrack None w)).

(** The two decimal digits of a number of seconds below 60. *)
Definition two_digits (r : Z) : string :=
  String (pretty_N_char (Z.to_N (r `div` 10)))
    (String (pretty_N_char (Z.to_N (r `mod` 10))) "").

(** The track [handlePlayComposition] builds from a composition. *)
Definition track_of (composition : HomeScreen.Composition)
    : AudioContext.Track :=
  {| AudioContext.id := pretty (HomeScreen.id composition);
     AudioContext.url := default "" (HomeScreen.audio_file composition);
     AudioContext.title := HomeScreen.title composition;
     AudioContext.artist := HomeScreen.user_username composition;
     AudioContext.duration := HomeScreen.duration composition |}.

(** ** Sample inputs *)

Module Samples.

Definition bad_request : AxiosError :=
  {| err_response :=
       Some {| status := 400;
               data := JObj {[ "message" := JStr "Bad request";
                               "error" := JStr "E400" ]} |};
     err_request := true;
     err_message := "Request failed with status code 400" |}.

Definition timed_out : AxiosError :=
  {| err_response := None; err_request := true;
     err_message := "timeout of 10000ms exceeded" |}.

Definition items : list jsval :=
  [JObj {[ "id" := JNum 1 ]}; JObj {[ "id" := JNum 2 ]}].

Definition envelope : jsobj :=
  {[ "count" := JNum 2; "next" := JNull; "results" := JArr items ]}.

Definition player_error : JsError :=
  {| message := "The player is not initialized" |}.

Definition idle : AudioContext.State :=
  {| AudioContext.currentTrack := None;
     AudioContext.isPlaying := false;
     AudioContext.playlist := [];
     AudioContext.shuffle := false;
     AudioContext.repeatMode := RepeatMode.Off;
     AudioContext.player :=
       {| AudioContext.queue := []; AudioContext.repeat := RepeatMode.Off |} |}.

Definition composition (id likes : Z) (title : string)
    : HomeScreen.Composition :=
  {| HomeScreen.id := id; HomeScreen.title := title;
     HomeScreen.user_username := "ann"; HomeScreen.genre_name := None;
     HomeScreen.duration := 180; HomeScreen.tempo := 120;
     HomeScreen.key_signature := "C"; HomeScreen.like_count := likes;
     HomeScreen.play_count := 10; HomeScreen.created_at := "2024-01-01";
     HomeScreen.audio_file := None |}.

Definition viral : HomeScreen.State :=
  {| HomeScreen.token := Some "t0k3n";
     HomeScreen.compositions := [composition 42 (2 ^ 53) "Hit"];
     HomeScreen.alerts := [] |}.

Definition home : HomeScreen.State :=
  {| HomeScreen.token := Some "t0k3n";
     HomeScreen.compositions :=
       [composition 42 3 "Dawn"; composition 7 9 "Dusk";
        composition 43 0 "Noon"];
     HomeScreen.alerts := [] |}.

Definition bad_credentials : AxiosError :=
  {| err_response :=
       Some {| status := 400;
               data := JObj {[ "non_field_errors" :=
                                 JArr [JStr "Unable to log in."] ]} |};
     err_request := true;
     err_message := "Request failed with status code 400" |}.


Definition unauthorized : AxiosError :=
  {| err_response :=
       Some {| status := 401;
               data := JObj {[ "detail" := JStr "Invalid token." ]} |};
     err_request := true;
     err_message := "Request failed with status code 401" |}.

Definition login_ok : AxiosResponse LoginResponse :=
  {| status := 200;
     data := {| resp_token := "n3w"; resp_user_id := JNum 2;
                resp_username := JStr "bob" |} |}.

Definition profile_ok : AxiosResponse jsobj :=
  {| status := 200;
     data := {[ "id" := JNum 2; "username" := JStr "bob";
                "email" := JStr "bob@example.org" ]} |}.

(** A profile body without [id] and [username]. *)
Definition profile_bare : AxiosResponse jsobj :=
  {| status := 200;
     data := {[ "bio" := JStr ""; "location" := JStr "Oslo" ]} |}.

Definition signed_in : AuthContext.State :=
  {| AuthContext.user :=
       Some {[ "id" := JNum 1; "username" := JStr "ann" ]};
     AuthContext.token := Some "0ld";
     AuthContext.loading := false;
     AuthContext.storage := {[ "auth_token" := "0ld" ]} |}.


Definition blank_form : AuthForms.State :=
  {| AuthForms.auth := Auth.mount ∅; AuthForms.error := "";
     AuthForms.loading := false; AuthForms.successes := 0 |}.

Definition track (n : Z) : AudioContext.Track :=
  {| AudioContext.id := pretty n; AudioContext.url := "file:///t.mp3";
     AudioContext.title := "Track"; AudioContext.artist := "ann";
     AudioContext.duration := 200 |}.

Definition player_screen : HomePlayer.State :=
  {| HomePlayer.home := home; HomePlayer.audio := idle |}.

Definition with_audio : HomeScreen.Composition :=
  {| HomeScreen.id := 42; HomeScreen.title := "Dawn";
     HomeScreen.user_username := "ann"; HomeScreen.genre_name := None;
     HomeScreen.duration := 180; HomeScreen.tempo := 120;
     HomeScreen.key_signature := "C"; HomeScreen.like_count := 3;
     HomeScreen.play_count := 10; HomeScreen.created_at := "2024-01-01";
     HomeScreen.audio_file := Some "https://cdn.example.org/42.mp3" |}.

End Samples.

(** * Properties *)

(** ** JavaScript values *)

Lemma new_Error_truthy (v : jsval) :
  truthy v = true -> new_Error v = {| message := js_to_string v |}.
Proof. by destruct v. Qed.

Lemma truthy_JStr (s : string) : truthy (JStr s) = true <-> s ≠ "".
Proof. destruct s; simpl; split; congruence. Qed.

Lemma js_or_l (a b : jsval) : truthy a = true -> js_or a b = a.
Proof. intros Ha. unfold js_or. by rewrite Ha. Qed.

Lemma js_or_r (a b : jsval) : truthy a = false -> js_or a b = b.
Proof. intros Ha. unfold js_or. by rewrite Ha. Qed.

(** [msg || 'fallback'] on strings is never empty. *)
Lemma or_fallback_nonempty (s fallback : string) :
  fallback ≠ "" ->
  message (new_Error (js_or (JStr s) (JStr fallback))) ≠ "".
Proof.
  intros Hf. unfold js_or. destruct s as [|c s]; simpl; [done | discriminate].
Qed.

(** ** The API client *)

Lemma handleError_response (error : AxiosError)
    (response : AxiosResponse jsval) :
  err_response error = Some response ->
  ApiService.handleError error = {| message := spec_message (data response) |}.
Proof.
  intros Hr. unfold ApiService.handleError. rewrite Hr.
  unfold spec_message, message_fields. cbn [first_present].
  set (d := js_get "detail" (data response)).
  set (m := js_get "message" (data response)).
  set (e := js_get "error" (data response)).
  destruct (truthy d) eqn:Hd.
  { rewrite (js_or_l d m), (js_or_l d e), (js_or_l d) by done.
    by apply new_Error_truthy. }
  rewrite (js_or_r d) by done.
  destruct (truthy m) eqn:Hm.
  { rewrite (js_or_l m e), (js_or_l m) by done. by apply new_Error_truthy. }
  rewrite (js_or_r m) by done.
  destruct (truthy e) eqn:He.
  { rewrite js_or_l by done. by apply new_Error_truthy. }
  by rewrite js_or_r.
Qed.

(** [logout] answered outside 2xx surfaces no error at all: the call
    returns normally. *)
Lemma logout_swallows_error_response :
  err_response Samples.unauthorized
  = Some {| status := 401;
            data := JObj {[ "detail" := JStr "Invalid token." ]} |}
  /\ ApiService.logout (A := jsval) (Rejected Samples.unauthorized)
     = Return tt
  /\ forall e, ApiService.logout (A := jsval) (Rejected Samples.unauthorized)
               ≠ Throw e.
Proof. repeat split; discriminate. Qed.

(** C5 (amended). Every method of the client but [logout], that is the
    nine methods that return the body and the eleven that return a list,
    throws, when its request is answered outside 2xx, an error whose
    message is the first of the body's [detail], [message], [error] fields
    that is present (holds a truthy value), else the generic message; and
    throws, when its request was made and got no response, the network
    error, whose message is neither of the fallback messages. [logout]
    catches the failure and returns normally in both cases. *)
Theorem handleError_message :
  (forall (error : AxiosError) (response : AxiosResponse jsval),
     err_response error = Some response ->
     (forall (A : Type) (m : ApiService.body_method),
        ApiService.call_body (A := A) m (Rejected error)
        = Throw (ExnError {| message := spec_message (data response) |}))
     /\ (forall m : ApiService.list_method,
           ApiService.call m (Rejected error)
           = Throw (ExnError {| message := spec_message (data response) |})))
  /\ (forall error : AxiosError,
        err_response error = None -> err_request error = true ->
        (forall (A : Type) (m : ApiService.body_method),
           ApiService.call_body (A := A) m (Rejected error)
           = Throw (ExnError {| message := ApiService.network_message |}))
        /\ (forall m : ApiService.list_method,
              ApiService.call m (Rejected error)
              = Throw (ExnError {| message := ApiService.network_message |}))
        /\ ApiService.network_message ≠ ApiService.generic_message
        /\ ApiService.network_message ≠ ApiService.unexpected_message)
  /\ (forall (A : Type) (r : axios_result A), ApiService.logout r = Return tt).
Proof.
  split; [| split].
  - intros error response Hr. split.
    + intros A m. destruct m; cbn;
        by rewrite (handleError_response error response Hr).
    + intros m. destruct m; cbn;
        by rewrite (handleError_response error response Hr).
  - intros error Hr Hq.
    assert (Hnet : ApiService.handleError error
                   = {| message := ApiService.network_message |}).
    { unfold ApiService.handleError. by rewrite Hr, Hq. }
    split; [| split; [| split; discriminate]].
    + intros A m. destruct m; cbn; by rewrite Hnet.
    + intros m. destruct m; cbn; by rewrite Hnet.
  - by intros A [response | error].
Qed.

Lemma handleError_message_witness :
  ApiService.getUserProfile (A := jsobj) (Rejected Samples.bad_request)
  = Throw (ExnError {| message := "Bad request" |})
  /\ ApiService.getCompositions (Rejected Samples.timed_out)
     = Throw (ExnError
                {| message := "Network error - please check your connection" |}).
Proof.
  destruct handleError_message as (Hresp & Hnet & _). split.
  - destruct (Hresp Samples.bad_request _ eq_refl) as [Hbody _].
    apply (Hbody jsobj ApiService.GetUserProfile).
  - destruct (Hnet Samples.timed_out eq_refl eq_refl) as (_ & Hlist & _).
    apply (Hlist ApiService.GetCompositions).
Defined.

(** An envelope returned by [getModelRecommendations] is not unwrapped. *)
Lemma getModelRecommendations_keeps_envelope :
  Samples.envelope !! "results" = Some (JArr Samples.items)
  /\ ApiService.call ApiService.GetModelRecommendations
       (Resolved {| status := 200; data := JObj Samples.envelope |})
     ≠ Return (JArr Samples.items).
Proof. split; [reflexivity | discriminate]. Qed.

(** C6 (amended). Every list-returning method returns a bare array as it
    is; given an envelope whose [results] is an array, every such method
    but [getModelRecommendations] returns that array, and
    [getModelRecommendations] returns the envelope itself. *)
Theorem list_methods_unwrap (m : ApiService.list_method) (st : Z)
    (envelope : jsobj) (items : list jsval) :
  envelope !! "results" = Some (JArr items) ->
  ApiService.call m (Resolved {| status := st; data := JArr items |})
  = Return (JArr items)
  /\ ApiService.call m (Resolved {| status := st; data := JObj envelope |})
     = Return (match m with
               | ApiService.GetModelRecommendations => JObj envelope
               | _ => JArr items
               end).
Proof.
  intros Hres. split.
  - by destruct m.
  - destruct m; cbn; unfold ApiService.unwrap, js_get, js_or;
      rewrite ?Hres; done.
Qed.

Lemma list_methods_unwrap_witness :
  ApiService.call ApiService.GetTrendingTracks
    (Resolved {| status := 200; data := JArr Samples.items |})
  = Return (JArr Samples.items)
  /\ ApiService.call ApiService.GetTrendingTracks
       (Resolved {| status := 200; data := JObj Samples.envelope |})
     = Return (JArr Samples.items).
Proof.
  apply (list_methods_unwrap ApiService.GetTrendingTracks 200
           Samples.envelope Samples.items).
  reflexivity.
Defined.

(** ** The playback controller *)

Lemma toggleRepeat_resolved (w : AudioContext.State) :
  exists w',
    AudioContext.toggleRepeat (AudioContext.repeatMode w) None w
    = (Return tt, w')
    /\ repeat_cycle (AudioContext.repeatMode w) (AudioContext.repeatMode w')
    /\ AudioContext.repeat (AudioContext.player w') = AudioContext.repeatMode w'
    /\ AudioContext.currentTrack w' = AudioContext.currentTrack w
    /\ AudioContext.isPlaying w' = AudioContext.isPlaying w
    /\ AudioContext.playlist w' = AudioContext.playlist w
    /\ AudioContext.shuffle w' = AudioContext.shuffle w
    /\ AudioContext.queue (AudioContext.player w')
       = AudioContext.queue (AudioContext.player w).
Proof.
  destruct w as [c p l s r pl]. eexists. split; [reflexivity |].
  destruct r; cbn; repeat split; constructor.
Qed.

Lemma toggleRepeat_rejected (captured : RepeatMode.t) (e : JsError)
    (w : AudioContext.State) :
  AudioContext.toggleRepeat captured (Some e) w = (Return tt, w).
Proof. by destruct w. Qed.

(** The mode does not always step along the cycle, nor do three
    invocations always close it. When the device player rejects the
    change the mode stays: from off it stays off, and three invocations
    of which the first is rejected end on queue. And three invocations,
    all resolved, through the handler of one and the same render all set
    the mode that follows the one that render captured: from off they end
    on track. *)
Lemma toggleRepeat_rejected_does_not_step :
  AudioContext.repeatMode Samples.idle = RepeatMode.Off
  /\ AudioContext.mode_after
       (AudioContext.toggleRepeat RepeatMode.Off (Some Samples.player_error))
       Samples.idle
     ≠ RepeatMode.Track
  /\ AudioContext.mode_after
       (AudioContext.toggleRepeat_now (Some Samples.player_error) ;;
        AudioContext.toggleRepeat_now None ;;
        AudioContext.toggleRepeat_now None) Samples.idle
     ≠ AudioContext.repeatMode Samples.idle
  /\ AudioContext.mode_after
       (AudioContext.toggleRepeat RepeatMode.Off None ;;
        AudioContext.toggleRepeat RepeatMode.Off None ;;
        AudioContext.toggleRepeat RepeatMode.Off None) Samples.idle
     = RepeatMode.Track.
Proof. repeat split; discriminate. Qed.

(** C7 (amended). An invocation of [toggleRepeat], through the handler
    of the current render, whose call into the device player resolves
    steps the repeat mode along the cycle off → track → queue → off; so
    three such invocations, each through the handler of the render that
    follows the one before, return the mode to its starting value,
    whichever that was. Three resolved invocations through the handler of
    one and the same render step the mode once. An invocation whose call
    is rejected leaves the mode as it was, and no invocation throws. *)
Theorem toggleRepeat_cycle (w : AudioContext.State) :
  repeat_cycle (AudioContext.repeatMode w)
    (AudioContext.mode_after
       (AudioContext.toggleRepeat (AudioContext.repeatMode w) None) w)
  /\ AudioContext.mode_after
       (AudioContext.toggleRepeat_now None ;;
        AudioContext.toggleRepeat_now None ;;
        AudioContext.toggleRepeat_now None) w
     = AudioContext.repeatMode w
  /\ repeat_cycle (AudioContext.repeatMode w)
       (AudioContext.mode_after
          (AudioContext.toggleRepeat (AudioContext.repeatMode w) None ;;
           AudioContext.toggleRepeat (AudioContext.repeatMode w) None ;;
           AudioContext.toggleRepeat (AudioContext.repeatMode w) None) w)
  /\ (forall captured r,
        fst (AudioContext.toggleRepeat captured r w) = Return tt)
  /\ (forall captured e,
        AudioContext.mode_after (AudioContext.toggleRepeat captured (Some e)) w
        = AudioContext.repeatMode w).
Proof.
  destruct w as [c p l s r pl].
  repeat split.
  - destruct r; constructor.
  - by destruct r.
  - destruct r; constructor.
  - by intros captured [e|].
Qed.

(** C8. [toggleShuffle], invoked through the handler of the current
    render, negates the shuffle flag and changes nothing else: playlist,
    current track, play state and repeat mode are as before, and so is
    the device player with its queue, whose order is the playback
    order. *)
Theorem toggleShuffle_only_flips_flag (w : AudioContext.State) :
  exists w',
    AudioContext.toggleShuffle (AudioContext.shuffle w) w = (Return tt, w')
    /\ AudioContext.shuffle w' = negb (AudioContext.shuffle w)
    /\ AudioContext.playlist w' = AudioContext.playlist w
    /\ AudioContext.currentTrack w' = AudioContext.currentTrack w
    /\ AudioContext.isPlaying w' = AudioContext.isPlaying w
    /\ AudioContext.repeatMode w' = AudioContext.repeatMode w
    /\ AudioContext.player w' = AudioContext.player w.
Proof. eexists. split; [reflexivity |]. by repeat split. Qed.

(** C10. When both calls into the device player resolve, [setPlaylist]
    makes the playlist state exactly the given list; the current track
    becomes the first track of a non-empty list and is left as it was
    for the empty list. *)
Theorem setPlaylist_current_track (tracks : list AudioContext.Track)
    (w : AudioContext.State) :
  exists w',
    AudioContext.setPlaylist None None tracks w = (Return tt, w')
    /\ AudioContext.playlist w' = tracks
    /\ AudioContext.currentTrack w'
       = match tracks with
         | first :: _ => Some first
         | [] => AudioContext.currentTrack w
         end.
Proof.
  destruct tracks as [|first rest]; eexists; (split; [reflexivity |]); done.
Qed.

(** ** The home screen *)

Lemma js_add_one_exact (c : Z) :
  - 2 ^ 53 <= c < 2 ^ 53 -> js_add c 1 = c + 1.
Proof.
  intros Hc. unfold js_add, round_double. cbn zeta.
  destruct (Z.leb_spec (Z.abs (c + 1)) (2 ^ 53)) as [_ | Hbig]; [done | lia].
Qed.

(** Liking a composition whose count is [2^53] leaves the count as it
    is: [2^53 + 1] is not a number and the sum rounds back to [2^53]. *)
Lemma like_count_saturates :
  exists w',
    HomeScreen.handleLikeComposition 42
      (Resolved {| status := 200; data := JObj ∅ |}) Samples.viral
    = (Return tt, w')
    /\ HomeScreen.like_count <$> HomeScreen.compositions Samples.viral
       = [2 ^ 53]
    /\ HomeScreen.like_count <$> HomeScreen.compositions w' = [2 ^ 53].
Proof. eexists. split; [| split]; reflexivity. Qed.

(** C9 (amended). With a token present and a successful response to the
    like request, [handleLikeComposition] keeps the list of compositions
    in place and, entry by entry, gives an entry with the given id the
    count that [like_count + 1] evaluates to, which is the count plus
    exactly 1 when the count is an integer from [-2^53] to [2^53 - 1],
    leaving its other fields as they were, and leaves every entry with
    another id unchanged. *)
Theorem handleLikeComposition_increments (compositionId : Z)
    (response : AxiosResponse jsval) (w : HomeScreen.State) :
  str_truthy (HomeScreen.token w) = true ->
  exists w',
    HomeScreen.handleLikeComposition compositionId (Resolved response) w
    = (Return tt, w')
    /\ length (HomeScreen.compositions w') = length (HomeScreen.compositions w)
    /\ forall (i : nat) (comp : HomeScreen.Composition),
         HomeScreen.compositions w !! i = Some comp ->
         exists comp',
           HomeScreen.compositions w' !! i = Some comp'
           /\ (HomeScreen.id comp = compositionId ->
               HomeScreen.like_count comp'
               = js_add (HomeScreen.like_count comp) 1
               /\ (- 2 ^ 53 <= HomeScreen.like_count comp < 2 ^ 53 ->
                   HomeScreen.like_count comp'
                   = HomeScreen.like_count comp + 1)
               /\ same_but_likes comp comp')
           /\ (HomeScreen.id comp ≠ compositionId -> comp' = comp).
Proof.
  intros Htoken. unfold HomeScreen.handleLikeComposition.
  eff_unfold. rewrite Htoken. cbn.
  eexists. split; [reflexivity |]. cbn. split.
  - apply length_fmap.
  - intros i comp Hi. rewrite list_lookup_fmap, Hi. cbn.
    eexists. split; [reflexivity |].
    destruct (Z.eqb_spec (HomeScreen.id comp) compositionId) as [Heq | Hne].
    + split; [intros _ | done]. cbn.
      split; [done |]. split; [apply js_add_one_exact |]. by repeat split.
    + split; [done | by intros _].
Qed.

Lemma handleLikeComposition_increments_witness :
  exists w',
    HomeScreen.handleLikeComposition 42
      (Resolved {| status := 200; data := JObj ∅ |}) Samples.home
    = (Return tt, w')
    /\ HomeScreen.like_count <$> HomeScreen.compositions w' = [4; 9; 0].
Proof.
  destruct (handleLikeComposition_increments 42
              {| status := 200; data := JObj ∅ |} Samples.home eq_refl)
    as (w' & Hrun & _ & _).
  exists w'. split; [exact Hrun |].
  vm_compute in Hrun. injection Hrun as <-. reflexivity.
Defined.

(** ** String conversion of numbers and truthy values *)

Lemma pretty_N_go_nonempty (x : N) (s : string) :
  s ≠ "" -> pretty_N_go x s ≠ "".
Proof.
  revert s. induction (N.lt_wf_0 x) as [x _ IH]. intros s Hs.
  destruct (decide (x = 0)%N) as [-> | Hx].
  - by rewrite pretty_N_go_0.
  - rewrite pretty_N_go_step by lia.
    apply IH; [apply N.div_lt; lia | discriminate].
Qed.

Lemma pretty_Z_nonempty (n : Z) : pretty n ≠ "".
Proof.
  destruct n as [|p|p]; [discriminate | | discriminate].
  change (pretty (N.pos p) ≠ ""). unfold pretty, pretty_N.
  destruct (decide (N.pos p = 0%N)); [discriminate |].
  rewrite pretty_N_go_step by lia.
  apply pretty_N_go_nonempty. discriminate.
Qed.

(** Only an array can be truthy and convert to the empty string. *)
Lemma js_to_string_nonempty (v : jsval) :
  truthy v = true -> (forall l, v ≠ JArr l) -> js_to_string v ≠ "".
Proof.
  intros Ht Harr. destruct v as [| |[]|n|s|l|m]; try discriminate.
  - apply pretty_Z_nonempty.
  - by apply truthy_JStr.
  - by destruct (Harr l).
Qed.

(** ** The session managers *)






(** C2. From every session state and whatever the remote invalidation
    request settles to, [logout] returns without throwing and leaves no
    user, no token in memory and no persisted token, so the session is
    not authenticated; this holds for the mobile and the web provider. *)
Theorem logout_clears_session :
  (forall (logout_r : axios_result jsval) (w : AuthContext.State),
     exists w',
       AuthContext.logout logout_r w = (Return tt, w')
       /\ AuthContext.user w' = None
       /\ AuthContext.token w' = None
       /\ AuthContext.storage w' = delete "auth_token" (AuthContext.storage w)
       /\ AuthContext.storage w' !! "auth_token" = None
       /\ AuthContext.isAuthenticated w' = false)
  /\ (forall (logout_r : axios_result jsval) (w : Auth.State),
        exists w',
          Auth.logout logout_r w = (Return tt, w')
          /\ Auth.user w' = None
          /\ Auth.token w' = None
          /\ Auth.storage w' = delete "auth_token" (Auth.storage w)
          /\ Auth.storage w' !! "auth_token" = None
          /\ Auth.isAuthenticated w' = false).
Proof.
  split.
  - intros logout_r [u t ld st].
    eexists. split.
    + unfold AuthContext.logout. eff_unfold. cbn.
      destruct (str_truthy t); [destruct logout_r |]; reflexivity.
    + cbn. repeat split. apply lookup_delete_eq.
  - intros logout_r [u t st].
    eexists. split.
    + unfold Auth.logout. eff_unfold. cbn.
      destruct (str_truthy t); [destruct logout_r |]; reflexivity.
    + cbn. repeat split. apply lookup_delete_eq.
Qed.

(** On a failed profile request the mobile provider removes the persisted
    token and keeps the one it has put in memory. *)
Lemma loadStoredAuth_failure (error : AxiosError) (w : AuthContext.State) :
  str_truthy (AuthContext.storage w !! "auth_token") = true ->
  AuthContext.loadStoredAuth (Rejected error) w
  = (Return tt,
     {| AuthContext.user := AuthContext.user w;
        AuthContext.token := AuthContext.storage w !! "auth_token";
        AuthContext.loading := false;
        AuthContext.storage := delete "auth_token" (AuthContext.storage w) |}).
Proof.
  intros Hstored. destruct w as [u t ld st].
  unfold AuthContext.loadStoredAuth, AuthContext.getItem. eff_unfold.
  cbn in *. by rewrite Hstored.
Qed.

(** The web provider, on the same failure, logs out: nothing is left. *)
Lemma loadUser_failure (error : AxiosError) (logout_r : axios_result jsval)
    (store : gmap string string) :
  str_truthy (store !! "auth_token") = true ->
  Auth.loadUser (Rejected error) logout_r (Auth.mount store)
  = (Return tt,
     {| Auth.user := None; Auth.token := None;
        Auth.storage := delete "auth_token" store |}).
Proof.
  intros Hstored.
  unfold Auth.loadUser, Auth.logout, Auth.mount. eff_unfold. cbn.
  rewrite Hstored. cbn. rewrite Hstored. by destruct logout_r.
Qed.

(** C3. Restoring the session on mobile from the persisted token ["0ld"]
    with a profile request answered 401: the persisted token is removed
    and no user is set, and the token ["0ld"] stays in memory. *)
Theorem loadStoredAuth_failure_keeps_token :
  AuthContext.loadStoredAuth (Rejected Samples.unauthorized)
    (AuthContext.mount {[ "auth_token" := "0ld" ]})
  = (Return tt,
     {| AuthContext.user := None;
        AuthContext.token := Some "0ld";
        AuthContext.loading := false;
        AuthContext.storage := ∅ |}).
Proof. reflexivity. Qed.

Lemma AuthContext_login_success (login_response : AxiosResponse LoginResponse)
    (profile : AxiosResponse jsobj) (w : AuthContext.State) :
  AuthContext.login (Resolved login_response) (Resolved profile) w
  = (Return tt,
     {| AuthContext.user :=
          Some (spread {[ "id" := resp_user_id (data login_response);
                          "username" := resp_username (data login_response) ]}
                       (data profile));
        AuthContext.token := Some (resp_token (data login_response));
        AuthContext.loading := AuthContext.loading w;
        AuthContext.storage :=
          <["auth_token" := resp_token (data login_response)]>
            (AuthContext.storage w) |}).
Proof. by destruct w. Qed.

Lemma loadStoredAuth_success (profile : AxiosResponse jsobj)
    (w : AuthContext.State) :
  str_truthy (AuthContext.storage w !! "auth_token") = true ->
  AuthContext.loadStoredAuth (Resolved profile) w
  = (Return tt,
     {| AuthContext.user := Some (data profile);
        AuthContext.token := AuthContext.storage w !! "auth_token";
        AuthContext.loading := false;
        AuthContext.storage := AuthContext.storage w |}).
Proof.
  intros Hstored. destruct w as [u t ld st].
  unfold AuthContext.loadStoredAuth, AuthContext.getItem. eff_unfold.
  cbn in *. by rewrite Hstored.
Qed.

(** With a profile body that carries no [id], the restored session has
    no [user.id] while the session that login established had the
    [user_id] of the login response. *)
Lemma restore_loses_id :
  exists w1 w2,
    AuthContext.login (Resolved Samples.login_ok)
      (Resolved Samples.profile_bare) (AuthContext.mount ∅) = (Return tt, w1)
    /\ AuthContext.loadStoredAuth (Resolved Samples.profile_bare)
         (AuthContext.mount (AuthContext.storage w1)) = (Return tt, w2)
    /\ field "id" (AuthContext.user w1) = JNum 2
    /\ field "id" (AuthContext.user w2) = JUndefined
    /\ field "id" (AuthContext.user w2) ≠ field "id" (AuthContext.user w1).
Proof.
  do 2 eexists. split; [reflexivity |]. split; [reflexivity |].
  repeat split. discriminate.
Qed.

(** C4 (amended). Let a login succeed with a non-empty token and a
    profile body that carries an [id] and a [username]. Restarting the
    provider over the store that login left and restoring the session,
    with a profile request that succeeds with a body carrying the same
    [id] and [username], yields an authenticated session with the same
    token whose [user.id] and [user.username] are those of the session
    before the restart. *)
Theorem restore_round_trip (login_response : AxiosResponse LoginResponse)
    (profile1 profile2 : AxiosResponse jsobj) (uid uname : jsval)
    (w w1 : AuthContext.State) :
  resp_token (data login_response) ≠ "" ->
  data profile1 !! "id" = Some uid ->
  data profile1 !! "username" = Some uname ->
  data profile2 !! "id" = Some uid ->
  data profile2 !! "username" = Some uname ->
  AuthContext.login (Resolved login_response) (Resolved profile1) w
  = (Return tt, w1) ->
  exists w2,
    AuthContext.loadStoredAuth (Resolved profile2)
      (AuthContext.mount (AuthContext.storage w1)) = (Return tt, w2)
    /\ field "id" (AuthContext.user w2) = field "id" (AuthContext.user w1)
    /\ field "username" (AuthContext.user w2)
       = field "username" (AuthContext.user w1)
    /\ AuthContext.token w2 = AuthContext.token w1
    /\ AuthContext.isAuthenticated w2 = true.
Proof.
  intros Htok Hid1 Hname1 Hid2 Hname2.
  rewrite AuthContext_login_success. intros [= <-]. cbn.
  assert (Hstored : str_truthy
            (<["auth_token" := resp_token (data login_response)]>
               (AuthContext.storage w) !! "auth_token") = true).
  { rewrite lookup_insert_eq. cbn.
    by destruct (resp_token (data login_response)). }
  eexists. split.
  { apply loadStoredAuth_success. exact Hstored. }
  cbn. unfold spread.
  rewrite (lookup_union_Some_l _ _ _ _ Hid1).
  rewrite (lookup_union_Some_l _ _ _ _ Hname1).
  rewrite Hid2, Hname2, lookup_insert_eq.
  repeat split. unfold AuthContext.isAuthenticated. cbn.
  by destruct (resp_token (data login_response)).
Qed.

Lemma restore_round_trip_witness :
  exists w1 w2,
    AuthContext.login (Resolved Samples.login_ok)
      (Resolved Samples.profile_ok) Samples.signed_in = (Return tt, w1)
    /\ AuthContext.loadStoredAuth (Resolved Samples.profile_ok)
         (AuthContext.mount (AuthContext.storage w1)) = (Return tt, w2)
    /\ field "id" (AuthContext.user w2) = field "id" (AuthContext.user w1)
    /\ field "username" (AuthContext.user w2)
       = field "username" (AuthContext.user w1).
Proof.
  eexists.
  destruct (restore_round_trip Samples.login_ok Samples.profile_ok
              Samples.profile_ok (JNum 2) (JStr "bob") Samples.signed_in _
              ltac:(discriminate) eq_refl eq_refl eq_refl eq_refl eq_refl)
    as (w2 & Hrun & Hid & Hname & _).
  exists w2. split; [reflexivity |]. by repeat split.
Defined.

(** * Further properties of the session managers *)


Lemma session_step_synced (w w' : AuthContext.State) :
  session_step w w' -> token_synced w -> token_synced w'.
Proof.
  unfold token_synced.
  intros Hstep. destruct Hstep as
    [login_r profile w | register_r profile w | logout_r w | update_r w
    | response w]; destruct w as [u t ld st]; cbn; intros Hs.
  - destruct login_r, profile; cbn; by rewrite ?lookup_insert_eq.
  - destruct register_r, profile; cbn; by rewrite ?lookup_insert_eq.
  - unfold AuthContext.logout. eff_unfold. cbn.
    destruct (str_truthy t); [destruct logout_r |]; cbn;
      by rewrite lookup_delete_eq.
  - unfold AuthContext.updateProfile. eff_unfold. cbn.
    destruct (str_truthy t); cbn; [| done].
    destruct update_r; cbn; [by destruct u | done].
  - unfold AuthContext.loadStoredAuth, AuthContext.getItem. eff_unfold. cbn.
    by destruct (str_truthy (st !! "auth_token")).
Qed.

(** X2. Mobile: from a session whose in-memory token agrees with the
    persisted one, every sequence of [login], [register], [logout],
    [updateProfile] and successful restores, whatever the requests of the
    first four return, ends in a session where they agree again. *)
Theorem session_keeps_token_synced (w w' : AuthContext.State) :
  rtc session_step w w' -> token_synced w -> token_synced w'.
Proof.
  induction 1 as [w | w w1 w' Hstep _ IH]; [done |].
  intros Hs. apply IH. by apply (session_step_synced w).
Qed.

Lemma session_keeps_token_synced_witness :
  token_synced
    (snd (AuthContext.logout (Rejected Samples.timed_out)
       (snd (AuthContext.login (Resolved Samples.login_ok)
               (Rejected Samples.timed_out) Samples.signed_in)))).
Proof.
  apply (session_keeps_token_synced Samples.signed_in).
  - eapply rtc_l; [apply step_login |].
    eapply rtc_l; [apply step_logout |]. apply rtc_refl.
  - reflexivity.
Defined.

Lemma web_step_synced (w w' : Auth.State) :
  web_step w w' ->
  Auth.token w = Auth.storage w !! "auth_token" ->
  Auth.token w' = Auth.storage w' !! "auth_token".
Proof.
  intros Hstep. destruct Hstep as
    [login_r profile w | userData register_r profile w | logout_r w
    | update_r w | profile logout_r w]; destruct w as [u t st]; cbn;
    intros Hs.
  - destruct login_r, profile; cbn; by rewrite ?lookup_insert_eq.
  - destruct register_r, profile; cbn; by rewrite ?lookup_insert_eq.
  - unfold Auth.logout. eff_unfold. cbn.
    destruct (str_truthy t); [destruct logout_r |]; cbn;
      by rewrite lookup_delete_eq.
  - unfold Auth.updateProfile. eff_unfold. cbn.
    destruct (str_truthy t); cbn; [| done].
    destruct update_r; cbn; [by destruct u | done].
  - unfold Auth.loadUser, Auth.logout. eff_unfold. cbn.
    destruct (str_truthy t) eqn:Ht; cbn; [| done].
    destruct u; cbn; [done |].
    destruct profile; cbn; [done |].
    rewrite Ht. destruct logout_r; cbn; by rewrite lookup_delete_eq.
Qed.

(** X3. Web: in every state the provider reaches from its first render
    over any store, through any sequence of [login], [register],
    [logout], [updateProfile] and runs of the user-loading effect with any
    results of their requests, the in-memory token is the persisted
    token. *)
Theorem web_token_synced (store : gmap string string) (w : Auth.State) :
  rtc web_step (Auth.mount store) w ->
  Auth.token w = Auth.storage w !! "auth_token".
Proof.
  intros Hreach.
  assert (Hinv : forall a b, rtc web_step a b ->
            Auth.token a = Auth.storage a !! "auth_token" ->
            Auth.token b = Auth.storage b !! "auth_token").
  { induction 1 as [a | a a1 b Hstep _ IH]; [done |].
    intros Ha. apply IH. by apply (web_step_synced a). }
  by apply (Hinv _ _ Hreach).
Qed.

Lemma web_token_synced_witness :
  let w := snd (Auth.loadUser (Rejected Samples.unauthorized)
                  (Rejected Samples.timed_out)
                  (Auth.mount {[ "auth_token" := "0ld" ]})) in
  Auth.token w = Auth.storage w !! "auth_token".
Proof.
  apply (web_token_synced {[ "auth_token" := "0ld" ]}).
  eapply rtc_l; [apply web_loadUser |]. apply rtc_refl.
Defined.

(** X4. A [logout] leaves the same session whatever preceded it: after a
    [login] of any outcome, and after another [logout], the state is the
    one a single [logout] gives, on mobile and on the web; no trace of
    the token that [login] persisted is left. *)
Theorem logout_absorbs_login :
  (forall login_r profile (r1 r2 : axios_result jsval) (w : AuthContext.State),
     snd (AuthContext.logout r1 (snd (AuthContext.login login_r profile w)))
     = snd (AuthContext.logout r2 w)
     /\ snd (AuthContext.logout r1 (snd (AuthContext.logout r2 w)))
        = snd (AuthContext.logout r2 w))
  /\ (forall login_r profile (r1 r2 : axios_result jsval) (w : Auth.State),
        snd (Auth.logout r1 (snd (Auth.login login_r profile w)))
        = snd (Auth.logout r2 w)
        /\ snd (Auth.logout r1 (snd (Auth.logout r2 w)))
           = snd (Auth.logout r2 w)).
Proof.
  assert (Hm : forall r (w : AuthContext.State),
            snd (AuthContext.logout r w)
            = {| AuthContext.user := None; AuthContext.token := None;
                 AuthContext.loading := AuthContext.loading w;
                 AuthContext.storage :=
                   delete "auth_token" (AuthContext.storage w) |}).
  { intros r [u t ld st]. unfold AuthContext.logout. eff_unfold. cbn.
    destruct (str_truthy t); [destruct r |]; reflexivity. }
  assert (Hw : forall r (w : Auth.State),
            snd (Auth.logout r w)
            = {| Auth.user := None; Auth.token := None;
                 Auth.storage := delete "auth_token" (Auth.storage w) |}).
  { intros r [u t st]. unfold Auth.logout. eff_unfold. cbn.
    destruct (str_truthy t); [destruct r |]; reflexivity. }
  split; intros login_r profile r1 r2 w.
  - rewrite !Hm. cbn. split; [| by rewrite delete_delete_eq].
    destruct w as [u t ld st], login_r, profile; cbn;
      by rewrite ?delete_insert_eq.
  - rewrite !Hw. cbn. split; [| by rewrite delete_delete_eq].
    destruct w as [u t st], login_r, profile; cbn;
      by rewrite ?delete_insert_eq.
Qed.

(** X5. Without a token in memory (absent or empty), [updateProfile]
    throws [Not authenticated] and leaves the session as it was, whatever
    the request would have returned, on mobile and on the web. *)
Theorem updateProfile_not_authenticated (update_r : axios_result jsval) :
  (forall w : AuthContext.State,
     str_truthy (AuthContext.token w) = false ->
     AuthContext.updateProfile update_r w
     = (Throw (ExnError {| message := "Not authenticated" |}), w))
  /\ (forall w : Auth.State,
        str_truthy (Auth.token w) = false ->
        Auth.updateProfile update_r w
        = (Throw (ExnError {| message := "Not authenticated" |}), w)).
Proof.
  split; intros w Ht.
  - unfold AuthContext.updateProfile. eff_unfold. by rewrite Ht.
  - unfold Auth.updateProfile. eff_unfold. by rewrite Ht.
Qed.

Lemma updateProfile_not_authenticated_witness :
  AuthContext.updateProfile (Resolved {| status := 200; data := JObj ∅ |})
    (AuthContext.mount ∅)
  = (Throw (ExnError {| message := "Not authenticated" |}),
     AuthContext.mount ∅).
Proof.
  apply (proj1 (updateProfile_not_authenticated _) (AuthContext.mount ∅)).
  reflexivity.
Defined.

(** X6. With a token in memory and a successful request, [updateProfile]
    returns; the user, when there is one, gets the response body as its
    [profile] and keeps every other property, no user stays no user, and
    the token and the store are untouched, on mobile and on the web. *)
Theorem updateProfile_replaces_profile (response : AxiosResponse jsval) :
  (forall w : AuthContext.State,
     str_truthy (AuthContext.token w) = true ->
     exists w',
       AuthContext.updateProfile (Resolved response) w = (Return tt, w')
       /\ AuthContext.user w'
          = (fun u => <["profile" := data response]> u) <$> AuthContext.user w
       /\ (forall k, k ≠ "profile" ->
             field k (AuthContext.user w') = field k (AuthContext.user w))
       /\ AuthContext.token w' = AuthContext.token w
       /\ AuthContext.storage w' = AuthContext.storage w
       /\ AuthContext.loading w' = AuthContext.loading w)
  /\ (forall w : Auth.State,
        str_truthy (Auth.token w) = true ->
        exists w',
          Auth.updateProfile (Resolved response) w = (Return tt, w')
          /\ Auth.user w'
             = (fun u => <["profile" := data response]> u) <$> Auth.user w
          /\ (forall k, k ≠ "profile" ->
                field k (Auth.user w') = field k (Auth.user w))
          /\ Auth.token w' = Auth.token w
          /\ Auth.storage w' = Auth.storage w).
Proof.
  split; intros w Ht.
  - destruct w as [u t ld st]. cbn in Ht.
    unfold AuthContext.updateProfile. eff_unfold. cbn. rewrite Ht. cbn.
    eexists. split; [reflexivity |]. cbn.
    destruct u as [u|]; cbn; repeat split; try done.
    intros k Hk. by rewrite lookup_insert_ne.
  - destruct w as [u t st]. cbn in Ht.
    unfold Auth.updateProfile. eff_unfold. cbn. rewrite Ht. cbn.
    eexists. split; [reflexivity |]. cbn.
    destruct u as [u|]; cbn; repeat split; try done.
    intros k Hk. by rewrite lookup_insert_ne.
Qed.

Lemma updateProfile_replaces_profile_witness :
  exists w',
    AuthContext.updateProfile
      (Resolved {| status := 200; data := JObj {[ "bio" := JStr "hi" ]} |})
      Samples.signed_in = (Return tt, w')
    /\ field "id" (AuthContext.user w') = JNum 1
    /\ field "profile" (AuthContext.user w') = JObj {[ "bio" := JStr "hi" ]}.
Proof.
  destruct (proj1 (updateProfile_replaces_profile
                     {| status := 200; data := JObj {[ "bio" := JStr "hi" ]} |})
              Samples.signed_in eq_refl) as (w' & Hrun & Hu & _).
  exists w'. split; [exact Hrun |]. rewrite Hu. split; reflexivity.
Defined.

(** X7. With a token in memory and a rejected request, [updateProfile]
    throws and leaves the session as it was. The message is never empty
    on mobile; on the web it is the string conversion of the body's
    [detail] when that is truthy and [Profile update failed] otherwise. *)
Theorem updateProfile_failure (error : AxiosError) :
  (forall w : AuthContext.State,
     str_truthy (AuthContext.token w) = true ->
     exists e,
       AuthContext.updateProfile (Rejected error) w = (Throw e, w)
       /\ exn_message e ≠ "")
  /\ (forall w : Auth.State,
        str_truthy (Auth.token w) = true ->
        Auth.updateProfile (Rejected error) w
        = (Throw (ExnError {| message :=
             match first_truthy [js_get "detail"
                                   (exn_response_data (ExnAxios error))] with
             | Some v => js_to_string v
             | None => "Profile update failed"
             end |}), w)).
Proof.
  split; intros w Ht.
  - unfold AuthContext.updateProfile. eff_unfold. rewrite Ht. cbn.
    eexists. split; [reflexivity |]. by apply or_fallback_nonempty.
  - unfold Auth.updateProfile. eff_unfold. rewrite Ht. cbn.
    unfold js_or.
    destruct (truthy _) eqn:Hd; [| done].
    by rewrite new_Error_truthy.
Qed.

Lemma updateProfile_failure_witness :
  exists e,
    AuthContext.updateProfile (Rejected Samples.unauthorized)
      Samples.signed_in = (Throw e, Samples.signed_in)
    /\ exn_message e ≠ "".
Proof.
  apply (proj1 (updateProfile_failure Samples.unauthorized)
           Samples.signed_in).
  reflexivity.
Defined.

(** X8. On mobile [register] acts on the session exactly as [login] does
    on the same results of the two requests, and returns exactly when
    [login] returns; its error differs only in the fallback message. *)
Theorem register_acts_as_login (r : axios_result LoginResponse)
    (profile : axios_result jsobj) (w : AuthContext.State) :
  snd (AuthContext.register r profile w) = snd (AuthContext.login r profile w)
  /\ (fst (AuthContext.register r profile w) = Return tt
      <-> fst (AuthContext.login r profile w) = Return tt)
  /\ (forall e,
        fst (AuthContext.register r profile w) = Throw e ->
        exn_message e ≠ "").
Proof.
  destruct w as [u t ld st], r as [response | error],
    profile as [presponse | perror]; cbn; repeat split; try done;
    intros e [= <-]; by apply or_fallback_nonempty.
Qed.

Lemma register_acts_as_login_witness :
  exists e,
    fst (AuthContext.register (Rejected Samples.bad_credentials)
           (Resolved Samples.profile_ok) Samples.signed_in) = Throw e
    /\ exn_message e ≠ "".
Proof.
  eexists. split; [reflexivity |].
  eapply (register_acts_as_login (Rejected Samples.bad_credentials)
            (Resolved Samples.profile_ok) Samples.signed_in).
  reflexivity.
Defined.



(** X10. A login request answered outside 2xx with a body that has no
    truthy [detail], [message] or [error] makes the mobile [login] throw
    [An error occurred] with the session unchanged, whatever
    [non_field_errors] the body carries; the web [login] throws the
    string conversion of the first entry of [non_field_errors] when that
    entry is truthy. *)
Theorem mobile_login_hides_non_field_errors (error : AxiosError)
    (response : AxiosResponse jsval) (profile : axios_result jsobj) :
  err_response error = Some response ->
  first_present message_fields (data response) = None ->
  (forall w : AuthContext.State,
     AuthContext.login (Rejected error) profile w
     = (Throw (ExnError {| message := "An error occurred" |}), w))
  /\ (forall w : Auth.State,
        truthy (first_non_field_error error) = true ->
        Auth.login (Rejected error) profile w
        = (Throw (ExnError
             {| message := js_to_string (first_non_field_error error) |}), w)).
Proof.
  intros Hr Hnone. split; intros w.
  - cbn. rewrite (handleError_response error response Hr).
    unfold spec_message. by rewrite Hnone.
  - intros Ht. cbn. fold (first_non_field_error error).
    rewrite js_or_l by done. by rewrite new_Error_truthy.
Qed.

Lemma mobile_login_hides_non_field_errors_witness :
  AuthContext.login (Rejected Samples.bad_credentials)
    (Resolved Samples.profile_ok) Samples.signed_in
  = (Throw (ExnError {| message := "An error occurred" |}), Samples.signed_in)
  /\ Auth.login (Rejected Samples.bad_credentials)
       (Resolved Samples.profile_ok) (Auth.mount ∅)
     = (Throw (ExnError {| message := "Unable to log in." |}), Auth.mount ∅).
Proof.
  destruct (mobile_login_hides_non_field_errors Samples.bad_credentials _
              (Resolved Samples.profile_ok) eq_refl eq_refl) as [Hm Hw].
  split; [apply Hm | apply Hw; reflexivity].
Defined.

(** X11. Restoring the session on mobile never throws and always ends
    with [loading] off, whatever the store holds and the profile request
    returns; when the store holds no token, or an empty one, nothing
    else changes and the result of the profile request plays no part;
    when it holds one and the request succeeds, that token and the
    profile body become the session and the store is kept. *)
Theorem loadStoredAuth_total (profile : axios_result jsobj)
    (w : AuthContext.State) :
  exists w',
    AuthContext.loadStoredAuth profile w = (Return tt, w')
    /\ AuthContext.loading w' = false
    /\ (str_truthy (AuthContext.storage w !! "auth_token") = false ->
        AuthContext.user w' = AuthContext.user w
        /\ AuthContext.token w' = AuthContext.token w
        /\ AuthContext.storage w' = AuthContext.storage w)
    /\ (forall response,
          str_truthy (AuthContext.storage w !! "auth_token") = true ->
          profile = Resolved response ->
          AuthContext.user w' = Some (data response)
          /\ AuthContext.token w' = AuthContext.storage w !! "auth_token"
          /\ AuthContext.storage w' = AuthContext.storage w).
Proof.
  destruct w as [u t ld st].
  unfold AuthContext.loadStoredAuth, AuthContext.getItem. eff_unfold. cbn.
  destruct (str_truthy (st !! "auth_token")) eqn:Hs; cbn.
  - destruct profile as [response | error]; cbn;
      (eexists; split; [reflexivity |]); cbn;
      (split; [done |]); (split; [done |]).
    + by intros ? _ [= <-].
    + by intros ? _ [=].
  - eexists. split; [reflexivity |]. cbn. by repeat split.
Qed.

Lemma loadStoredAuth_total_witness :
  exists w',
    AuthContext.loadStoredAuth (Rejected Samples.timed_out)
      (AuthContext.mount {[ "auth_token" := "" ]}) = (Return tt, w')
    /\ AuthContext.token w' = None
    /\ AuthContext.storage w' = {[ "auth_token" := "" ]}.
Proof.
  destruct (loadStoredAuth_total (Rejected Samples.timed_out)
              (AuthContext.mount {[ "auth_token" := "" ]}))
    as (w' & Hrun & _ & Hnone & _).
  exists w'. split; [exact Hrun |].
  destruct (Hnone eq_refl) as (_ & Ht & Hs). by split.
Defined.

Lemma login_cut (login_r : axios_result LoginResponse)
    (profile : axios_result jsobj) (w : Auth.State) :
  try_catch
    (response <- Auth.login_start login_r ;;
     Auth.login_finish response profile)
    Auth.login_catch w
  = Auth.login login_r profile w.
Proof. by destruct login_r, profile. Qed.

(** X12. Web round trip. Let a login succeed with a non-empty token and
    truthy [user_id] and [username], and let the effect that its
    [setToken] may trigger, if it issues its profile request, get a body
    whose [id] and [username] are those. Whichever of the two profile
    requests settles first, [login] returns; and rendering the provider
    anew over the store that is left and running the user-loading
    effect, with a profile request that succeeds with such a body,
    yields an authenticated session with the same token, [user.id] and
    [user.username] as the session that had settled. *)
Theorem web_restore_round_trip (login_response : AxiosResponse LoginResponse)
    (profile1 effect_profile profile2 : AxiosResponse jsobj)
    (logout_r : axios_result jsval) (effect_first : bool) (w : Auth.State) :
  resp_token (data login_response) ≠ "" ->
  truthy (resp_user_id (data login_response)) = true ->
  truthy (resp_username (data login_response)) = true ->
  data effect_profile !! "id" = Some (resp_user_id (data login_response)) ->
  data effect_profile !! "username"
  = Some (resp_username (data login_response)) ->
  data profile2 !! "id" = Some (resp_user_id (data login_response)) ->
  data profile2 !! "username" = Some (resp_username (data login_response)) ->
  let run := Auth.login_settled (Resolved login_response) (Resolved profile1)
               (Resolved effect_profile) logout_r effect_first w in
  fst run = Return tt
  /\ exists w2,
       Auth.loadUser (Resolved profile2) logout_r
         (Auth.mount (Auth.storage (snd run))) = (Return tt, w2)
       /\ field "id" (Auth.user w2) = field "id" (Auth.user (snd run))
       /\ field "username" (Auth.user w2)
          = field "username" (Auth.user (snd run))
       /\ Auth.token w2 = Auth.token (snd run)
       /\ Auth.isAuthenticated w2 = true.
Proof.
  intros Htok Htid Htname Heid Hename Hid Hname.
  destruct w as [u t st], login_response as [code [tok uid uname]].
  cbn in *. destruct tok as [|c tok]; [done |].
  assert (Hrestore :
            exists w2,
              Auth.loadUser (Resolved profile2) logout_r
                (Auth.mount (<["auth_token" := String c tok]> st))
              = (Return tt, w2)
              /\ field "id" (Auth.user w2) = uid
              /\ field "username" (Auth.user w2) = uname
              /\ Auth.token w2 = Some (String c tok)
              /\ Auth.isAuthenticated w2 = true).
  { unfold Auth.loadUser, Auth.mount. eff_unfold. cbn.
    rewrite lookup_insert_eq. cbn.
    eexists. split; [reflexivity |]. cbn.
    rewrite Hid, Hname. cbn. rewrite !js_or_l by done.
    repeat split. }
  destruct Hrestore as (w2 & Hrun & Hid2 & Hname2 & Htok2 & Hauth2).
  unfold Auth.login_settled. cbn.
  destruct (Auth.effect_fires (String c tok)
              {| Auth.user := u; Auth.token := t; Auth.storage := st |});
    [destruct effect_first |]; cbn; (split; [done |]); exists w2;
    rewrite ?Heid, ?Hename; cbn;
    rewrite ?(js_or_l uid), ?(js_or_l uname) by done;
    (split; [exact Hrun |]); rewrite Hid2, Hname2, Htok2; by repeat split.
Qed.

Lemma web_restore_round_trip_witness :
  let run := Auth.login_settled (Resolved Samples.login_ok)
               (Resolved Samples.profile_bare) (Resolved Samples.profile_ok)
               (Rejected Samples.timed_out) false (Auth.mount ∅) in
  exists w2,
    Auth.loadUser (Resolved Samples.profile_ok) (Rejected Samples.timed_out)
      (Auth.mount (Auth.storage (snd run))) = (Return tt, w2)
    /\ field "id" (Auth.user w2) = JNum 2
    /\ field "username" (Auth.user w2) = JStr "bob".
Proof.
  destruct (web_restore_round_trip Samples.login_ok Samples.profile_bare
              Samples.profile_ok Samples.profile_ok
              (Rejected Samples.timed_out) false (Auth.mount ∅))
    as (_ & w2 & Hrun & Hid & Hname & _);
    [discriminate | reflexivity | reflexivity | reflexivity | reflexivity
    | reflexivity | reflexivity |].
  exists w2. split; [exact Hrun |]. rewrite Hid, Hname. split; reflexivity.
Defined.

(** X13. Submitting the registration form with a password and a
    confirmation that differ sets the error [Passwords don't match],
    ends with [loading] off and does nothing else: [register] is not
    run, so the session and the store are as before whatever the server
    would have answered, and [onSuccess] is not called. *)
Theorem register_form_password_mismatch (formData : Auth.RegisterData)
    (register_r : axios_result LoginResponse) (profile : axios_result jsobj)
    (w : AuthForms.State) :
  Auth.password formData ≠ Auth.password_confirm formData ->
  AuthForms.register_handleSubmit formData register_r profile w
  = (Return tt,
     {| AuthForms.auth := AuthForms.auth w;
        AuthForms.error := "Passwords don't match";
        AuthForms.loading := false;
        AuthForms.successes := AuthForms.successes w |}).
Proof.
  intros Hne. unfold AuthForms.register_handleSubmit.
  apply String.eqb_neq in Hne. rewrite Hne. reflexivity.
Qed.

Lemma register_form_password_mismatch_witness :
  snd (AuthForms.register_handleSubmit
         {| Auth.username := "ann"; Auth.email := "ann@example.org";
            Auth.password := "pw1"; Auth.password_confirm := "pw2";
            Auth.first_name := ""; Auth.last_name := "" |}
         (Resolved Samples.login_ok) (Resolved Samples.profile_ok)
         Samples.blank_form)
  = {| AuthForms.auth := Auth.mount ∅;
       AuthForms.error := "Passwords don't match";
       AuthForms.loading := false;
       AuthForms.successes := 0 |}.
Proof.
  rewrite (register_form_password_mismatch _ (Resolved Samples.login_ok)
             (Resolved Samples.profile_ok) Samples.blank_form).
  - reflexivity.
  - discriminate.
Defined.

(** X14. The submit handlers of the login form and, with matching
    passwords, of the registration form never throw and end with
    [loading] off. When both requests succeed the error is cleared,
    [onSuccess] is called once and the provider is in the state the
    operation leaves; otherwise [onSuccess] is not called, the error shown
    is the message of the error the operation threw and the provider is
    in the state the failed operation leaves. *)
Theorem form_submit_outcome (formData : Auth.RegisterData)
    (r : axios_result LoginResponse) (profile : axios_result jsobj)
    (w : AuthForms.State) :
  Auth.password formData = Auth.password_confirm formData ->
  let shown (run : outcome unit * Auth.State) : AuthForms.State :=
    {| AuthForms.auth := snd run;
       AuthForms.error := match fst run with
                          | Return _ => ""
                          | Throw e => exn_message e
                          end;
       AuthForms.loading := false;
       AuthForms.successes := match fst run with
                              | Return _ => S (AuthForms.successes w)
                              | Throw _ => AuthForms.successes w
                              end |} in
  AuthForms.login_handleSubmit r profile w
  = (Return tt, shown (Auth.login r profile (AuthForms.auth w)))
  /\ AuthForms.register_handleSubmit formData r profile w
     = (Return tt, shown (Auth.register formData r profile (AuthForms.auth w))).
Proof.
  intros Heq. apply String.eqb_eq in Heq. cbn zeta.
  unfold AuthForms.register_handleSubmit, AuthForms.login_handleSubmit.
  rewrite Heq. cbn [negb].
  destruct w as [a err ld n], a as [u t st].
  destruct r as [response | error], profile as [presponse | perror];
    split; reflexivity.
Qed.

Lemma form_submit_outcome_witness :
  exists w',
    AuthForms.login_handleSubmit (Rejected Samples.bad_credentials)
      (Resolved Samples.profile_ok) Samples.blank_form = (Return tt, w')
    /\ AuthForms.error w' = "Unable to log in."
    /\ AuthForms.loading w' = false
    /\ AuthForms.successes w' = 0%nat.
Proof.
  eexists. split.
  - apply (form_submit_outcome
             {| Auth.username := ""; Auth.email := ""; Auth.password := "";
                Auth.password_confirm := ""; Auth.first_name := "";
                Auth.last_name := "" |}
             (Rejected Samples.bad_credentials) (Resolved Samples.profile_ok)
             Samples.blank_form eq_refl).
  - repeat split.
Defined.

(** * Further properties of the API client *)

(** X15. A list method other than [getModelRecommendations] that gets a
    2xx response with a [null] or [undefined] body throws instead of
    returning; with any other body whose [results] is absent or falsy
    ([null], [0], [false], the empty string) it returns the body itself,
    and with a truthy [results] it returns that value, array or not. *)
Theorem list_methods_body_edges (m : ApiService.list_method) (st : Z)
    (body : jsval) :
  m ≠ ApiService.GetModelRecommendations ->
  let result := ApiService.call m (Resolved {| status := st; data := body |}) in
  (body = JNull \/ body = JUndefined -> exists e, result = Throw e)
  /\ (body ≠ JNull -> body ≠ JUndefined ->
      result = Return (if truthy (js_get "results" body)
                       then js_get "results" body else body)).
Proof.
  intros Hm. cbn zeta. split.
  - intros [-> | ->]; destruct m; try done; by eexists.
  - intros Hnull Hundef.
    destruct m; try done; by destruct body.
Qed.

Lemma list_methods_body_edges_witness :
  (exists e,
     ApiService.getGenres (Resolved {| status := 204; data := JNull |})
     = Throw e)
  /\ ApiService.getGenres
       (Resolved {| status := 200;
                    data := JObj {[ "results" := JNull ]} |})
     = Return (JObj {[ "results" := JNull ]}).
Proof.
  split.
  - destruct (list_methods_body_edges ApiService.GetGenres 204 JNull
                ltac:(discriminate)) as [Hnull _].
    apply Hnull. by left.
  - destruct (list_methods_body_edges ApiService.GetGenres 200
                (JObj {[ "results" := JNull ]}) ltac:(discriminate))
      as [_ Hbody].
    apply Hbody; discriminate.
Defined.

(** X16. The error [handleError] builds has a non-empty message, unless
    the field of the response body it takes the message from holds an
    array. *)
Theorem handleError_message_nonempty (error : AxiosError) :
  (forall response l,
     err_response error = Some response ->
     first_present message_fields (data response) ≠ Some (JArr l)) ->
  message (ApiService.handleError error) ≠ "".
Proof.
  intros Harr.
  destruct (err_response error) as [response|] eqn:Hr.
  - rewrite (handleError_response error response Hr). cbn.
    unfold spec_message.
    destruct (first_present message_fields (data response)) as [v|] eqn:Hv;
      [| discriminate].
    apply js_to_string_nonempty.
    + clear Harr. revert Hv. generalize message_fields.
      induction l as [|k l IH]; cbn; [done |].
      destruct (truthy (js_get k (data response))) eqn:Hk; [| done].
      by intros [= <-].
    + intros l ->. by apply (Harr response l).
  - unfold ApiService.handleError. rewrite Hr.
    destruct (err_request error); [discriminate |].
    by apply or_fallback_nonempty.
Qed.

Lemma handleError_message_nonempty_witness :
  message (ApiService.handleError Samples.unauthorized) ≠ "".
Proof.
  apply handleError_message_nonempty.
  intros response l [= <-]. discriminate.
Defined.

(** * Further properties of the playback controller *)

(** X17. A [setPlaylist] whose reset is rejected changes nothing. One
    whose reset resolves and whose add is rejected returns normally with
    the device queue emptied while the playlist state and the current
    track are as before. *)
Theorem setPlaylist_failure (e : JsError) (tracks : list AudioContext.Track)
    (w : AudioContext.State) :
  (forall add_r, AudioContext.setPlaylist (Some e) add_r tracks w = (Return tt, w))
  /\ exists w',
       AudioContext.setPlaylist None (Some e) tracks w = (Return tt, w')
       /\ AudioContext.queue (AudioContext.player w') = []
       /\ AudioContext.repeat (AudioContext.player w')
          = AudioContext.repeat (AudioContext.player w)
       /\ AudioContext.playlist w' = AudioContext.playlist w
       /\ AudioContext.currentTrack w' = AudioContext.currentTrack w
       /\ AudioContext.isPlaying w' = AudioContext.isPlaying w
       /\ AudioContext.shuffle w' = AudioContext.shuffle w
       /\ AudioContext.repeatMode w' = AudioContext.repeatMode w.
Proof.
  destruct w as [c p l s r pl]. split.
  - by intros add_r.
  - eexists. split; [reflexivity |]. by repeat split.
Qed.

Lemma playback_step_synced (w w' : AudioContext.State) :
  playback_step w w' -> queue_synced w -> queue_synced w'.
Proof.
  unfold queue_synced.
  intros Hstep. destruct Hstep as
    [tracks w | e add_r tracks w | r track w | captured w | captured r w
    | r w | r w | r w | r w | r w | r position w | state w | nextTrack w];
    destruct w as [c p l s rm [q rp]]; cbn; intros Hs.
  - by destruct tracks.
  - done.
  - destruct r; cbn; [done | by rewrite Hs].
  - done.
  - destruct r; [done | by destruct captured].
  - by destruct r.
  - by destruct r.
  - by destruct r.
  - by destruct r.
  - by destruct r.
  - by destruct r.
  - by destruct state.
  - by destruct nextTrack.
Qed.

(** X18. From a state where the playlist state is the device queue
    (as at start, both empty), every sequence of [setPlaylist] calls whose
    reset and add both resolve or whose reset is rejected, of [addToPlaylist],
    the two toggles, pause, resume, stop, skips and seeks with any result
    of their device calls, and of player events, ends in a state where
    the playlist state is the device queue. *)
Theorem playlist_matches_device_queue (w w' : AudioContext.State) :
  rtc playback_step w w' -> queue_synced w -> queue_synced w'.
Proof.
  induction 1 as [w | w w1 w' Hstep _ IH]; [done |].
  intros Hs. apply IH. by apply (playback_step_synced w).
Qed.

Lemma playlist_matches_device_queue_witness :
  queue_synced
    (snd (AudioContext.addToPlaylist None (Samples.track 3)
       (snd (AudioContext.setPlaylist None None
               [Samples.track 1; Samples.track 2] Samples.idle)))).
Proof.
  apply (playlist_matches_device_queue Samples.idle).
  - eapply rtc_l; [apply step_setPlaylist |].
    eapply rtc_l; [apply step_addToPlaylist |]. apply rtc_refl.
  - reflexivity.
Defined.

(** X19. An [addToPlaylist] whose device call resolves puts the track at
    the end of the playlist state and of the device queue, keeping the
    entries before it, and leaves the current track as it was, also when
    the playlist was empty and no track was current; one whose device
    call is rejected changes nothing. Neither throws. *)
Theorem addToPlaylist_appends (track : AudioContext.Track)
    (w : AudioContext.State) :
  (exists w',
     AudioContext.addToPlaylist None track w = (Return tt, w')
     /\ AudioContext.playlist w' = (AudioContext.playlist w ++ [track])%list
     /\ AudioContext.queue (AudioContext.player w')
        = (AudioContext.queue (AudioContext.player w) ++ [track])%list
     /\ AudioContext.playlist w' !! length (AudioContext.playlist w)
        = Some track
     /\ (forall i t, AudioContext.playlist w !! i = Some t ->
           AudioContext.playlist w' !! i = Some t)
     /\ AudioContext.currentTrack w' = AudioContext.currentTrack w)
  /\ (forall e, AudioContext.addToPlaylist (Some e) track w = (Return tt, w)).
Proof.
  destruct w as [c p l s r pl]. split; [| done].
  eexists. split; [reflexivity |]. cbn.
  repeat split.
  - by rewrite lookup_app_r, Nat.sub_diag.
  - intros i t Hi. by apply lookup_app_l_Some.
Qed.

Lemma addToPlaylist_appends_witness :
  let w := snd (AudioContext.setPlaylist None None [Samples.track 1]
                  Samples.idle) in
  exists w',
    AudioContext.addToPlaylist None (Samples.track 2) w = (Return tt, w')
    /\ AudioContext.playlist w' !! 0%nat = Some (Samples.track 1)
    /\ AudioContext.playlist w' !! 1%nat = Some (Samples.track 2).
Proof.
  intros w.
  destruct (proj1 (addToPlaylist_appends (Samples.track 2) w))
    as (w' & Hrun & _ & _ & Hlast & Hkeep & _).
  exists w'. split; [exact Hrun |]. split; [| exact Hlast].
  apply Hkeep. reflexivity.
Defined.

(** X20. A [playTrack] whose three device calls resolve makes the track
    the current track and the only entry of the device queue, and leaves
    the playlist state as it was. When a call is rejected it returns
    normally with the current track unchanged, and the device queue is
    as before (reset rejected), empty (add rejected) or holds just the
    track (play rejected). *)
Theorem playTrack_outcomes (track : AudioContext.Track)
    (w : AudioContext.State) :
  let after r1 r2 r3 := snd (AudioContext.playTrack r1 r2 r3 track w) in
  let queue_of w := AudioContext.queue (AudioContext.player w) in
  (forall r1 r2 r3,
     fst (AudioContext.playTrack r1 r2 r3 track w) = Return tt
     /\ AudioContext.playlist (after r1 r2 r3) = AudioContext.playlist w)
  /\ AudioContext.currentTrack (after None None None) = Some track
  /\ queue_of (after None None None) = [track]
  /\ (forall e r2 r3, after (Some e) r2 r3 = w)
  /\ (forall e r3,
        AudioContext.currentTrack (after None (Some e) r3)
        = AudioContext.currentTrack w
        /\ queue_of (after None (Some e) r3) = [])
  /\ (forall e,
        AudioContext.currentTrack (after None None (Some e))
        = AudioContext.currentTrack w
        /\ queue_of (after None None (Some e)) = [track]).
Proof.
  destruct w as [c p l s r pl]. cbn zeta.
  repeat split; try done.
  - by destruct r1, r2, r3.
  - by destruct r1, r2, r3.
Qed.

(** X21. A [stopTrack] whose device call resolves clears the current
    track and nothing else; one whose call is rejected changes nothing.
    Neither throws. *)
Theorem stopTrack_clears_current (w : AudioContext.State) :
  AudioContext.stopTrack None w
  = (Return tt,
     {| AudioContext.currentTrack := None;
        AudioContext.isPlaying := AudioContext.isPlaying w;
        AudioContext.playlist := AudioContext.playlist w;
        AudioContext.shuffle := AudioContext.shuffle w;
        AudioContext.repeatMode := AudioContext.repeatMode w;
        AudioContext.player := AudioContext.player w |})
  /\ (forall e, AudioContext.stopTrack (Some e) w = (Return tt, w)).
Proof. by destruct w as [c p l s r [q rp]]. Qed.

(** X22. Pause, resume, the two skips and seek never throw and never
    change the state the provider exposes, whether the device player
    accepts or rejects the call: [isPlaying] and the current track move
    only through the player events, and the [PlaybackState] listener sets
    [isPlaying] exactly when the reported state is [Playing]. *)
Theorem transport_commands_leave_state (r : AudioContext.player_result)
    (position : Z) (w : AudioContext.State) :
  AudioContext.pauseTrack r w = (Return tt, w)
  /\ AudioContext.resumeTrack r w = (Return tt, w)
  /\ AudioContext.skipToNext r w = (Return tt, w)
  /\ AudioContext.skipToPrevious r w = (Return tt, w)
  /\ AudioContext.seekTo r position w = (Return tt, w)
  /\ (forall state,
        AudioContext.isPlaying (snd (AudioContext.onPlaybackState state w))
        = true
        <-> state = AudioContext.PlaybackState.Playing).
Proof.
  destruct w as [c p l s rm [q rp]].
  split; [by destruct r |]. split; [by destruct r |].
  split; [by destruct r |]. split; [by destruct r |].
  split; [by destruct r |].
  intros []; cbn; split; congruence.
Qed.

Lemma transport_commands_leave_state_witness :
  AudioContext.pauseTrack (Some Samples.player_error) Samples.idle
  = (Return tt, Samples.idle)
  /\ AudioContext.isPlaying
       (snd (AudioContext.onPlaybackState AudioContext.PlaybackState.Playing
               Samples.idle)) = true.
Proof.
  destruct (transport_commands_leave_state (Some Samples.player_error) 0
              Samples.idle) as (Hpause & _ & _ & _ & _ & Hplaying).
  split; [exact Hpause |]. by apply Hplaying.
Defined.

(** X23. Two invocations of [toggleShuffle], the second through the
    handler of the render that follows the first, give back the state
    exactly; two invocations through the handler of one and the same
    render both set the negation of the flag that render captured, and
    so leave the flag flipped. *)
Theorem toggleShuffle_twice (w : AudioContext.State) :
  (AudioContext.toggleShuffle_now ;; AudioContext.toggleShuffle_now) w
  = (Return tt, w)
  /\ AudioContext.shuffle
       (snd ((AudioContext.toggleShuffle (AudioContext.shuffle w) ;;
              AudioContext.toggleShuffle (AudioContext.shuffle w)) w))
     = negb (AudioContext.shuffle w).
Proof.
  destruct w as [c p l s r pl]. cbn. by rewrite negb_involutive.
Qed.

(** X24. After a [setPlaylist] whose device calls resolve, a
    track-changed event for the place [i] of the queue makes the current
    track the [i]-th track of the list, and no track when [i] is past its
    end; an event without next track changes nothing; and when
    [getTrack] is rejected the listener throws, leaving the state as it
    was. *)
Theorem track_changed_follows_queue (tracks : list AudioContext.Track)
    (w : AudioContext.State) :
  let w1 := snd (AudioContext.setPlaylist None None tracks w) in
  (forall i,
     exists w2,
       AudioContext.onPlaybackTrackChanged (Some i) None w1 = (Return tt, w2)
       /\ AudioContext.currentTrack w2 = tracks !! i
       /\ AudioContext.playlist w2 = tracks)
  /\ (forall r, AudioContext.onPlaybackTrackChanged None r w1 = (Return tt, w1))
  /\ (forall i e,
        AudioContext.onPlaybackTrackChanged (Some i) (Some e) w1
        = (Throw (ExnError e), w1)).
Proof.
  destruct w as [c p l s r pl]. cbn zeta.
  destruct tracks as [|first rest]; repeat split; try done;
    intros i; eexists; (split; [reflexivity |]); done.
Qed.

(** * Further properties of the home screen *)

Lemma two_digits_below_60 (r : Z) :
  0 <= r < 60 -> HomeScreen.padStart0 2 (pretty r) = two_digits r.
Proof.
  intros Hr.
  assert (Hall : forallb (fun r => String.eqb
                            (HomeScreen.padStart0 2 (pretty r)) (two_digits r))
                   (seqZ 0 60) = true) by (vm_compute; reflexivity).
  rewrite forallb_forall in Hall.
  apply String.eqb_eq, Hall, list_elem_of_In, elem_of_seqZ. lia.
Qed.

(** Below [2^47] the rounding of the quotient by 60 never reaches the
    next integer, so [Math.floor] gives the integer quotient. *)
Lemma floor_rounded_quotient (s sh : Z) :
  0 < s -> 6 <= sh ->
  round_half_even ((s * 2 ^ sh) `div` 60) ((s * 2 ^ sh) `mod` 60) 60
    `div` 2 ^ sh
  = s `div` 60.
Proof.
  intros Hs Hsh.
  assert (HP : 64 <= 2 ^ sh).
  { change 64 with (2 ^ 6). apply Z.pow_le_mono_r; lia. }
  set (P := 2 ^ sh) in *.
  set (q := (s * P) `div` 60).
  set (k := s `div` 60).
  assert (Hq : 60 * q <= s * P < 60 * q + 60).
  { pose proof (Z.div_mod (s * P) 60 ltac:(lia)).
    pose proof (Z.mod_pos_bound (s * P) 60 ltac:(lia)). subst q. lia. }
  assert (Hk : 60 * k <= s < 60 * k + 60).
  { pose proof (Z.div_mod s 60 ltac:(lia)).
    pose proof (Z.mod_pos_bound s 60 ltac:(lia)). subst k. lia. }
  assert (Hm : q <= round_half_even q ((s * P) `mod` 60) 60 <= q + 1).
  { unfold round_half_even. repeat case_match; lia. }
  set (m := round_half_even q ((s * P) `mod` 60) 60) in *.
  assert (Hlow : k * P <= q) by nia.
  assert (Hhigh : q + 1 < (k + 1) * P) by nia.
  symmetry. apply (Z.div_unique m P k (m - k * P)); [left; nia | lia].
Qed.

Lemma js_floor_div_60 (seconds : Z) :
  0 <= seconds < 2 ^ 47 -> js_floor (js_div seconds 60) = seconds `div` 60.
Proof.
  intros [Hlo Hhi].
  destruct (decide (seconds = 0)) as [-> | Hne]; [reflexivity |].
  unfold js_div. rewrite (proj2 (Z.eqb_neq seconds 0) Hne).
  rewrite Z.abs_eq, Z.sgn_pos by lia. cbn zeta.
  change (Z.log2 60) with 5.
  assert (Hlog : 0 <= Z.log2 seconds < 47).
  { split; [apply Z.log2_nonneg | apply Z.log2_lt_pow2; lia]. }
  set (e0 := Z.log2 seconds - 5).
  set (e := if 60 * 2 ^ Z.max 0 e0 <=? seconds * 2 ^ Z.max 0 (- e0)
            then e0 else e0 - 1).
  assert (He : e <= 41) by (subst e e0; case_match; lia).
  rewrite (Z.max_r 0 (52 - e)), (Z.max_l 0 (e - 52)) by lia.
  rewrite Z.pow_0_r, Z.mul_1_r, Z.mul_1_l. unfold js_floor.
  destruct (Z.leb_spec 0 (e - 52)) as [Hpos | _]; [lia |].
  replace (- (e - 52)) with (52 - e) by lia.
  apply floor_rounded_quotient; lia.
Qed.

Lemma formatDuration_nonneg (seconds : Z) :
  0 <= seconds < 2 ^ 47 ->
  HomeScreen.formatDuration seconds
  = Some (pretty (seconds `div` 60) +:+ ":"
          +:+ two_digits (seconds `mod` 60)).
Proof.
  intros Hs. unfold HomeScreen.formatDuration.
  rewrite js_floor_div_60 by done.
  rewrite Z.rem_mod_nonneg by lia.
  pose proof (Z.mod_pos_bound seconds 60 ltac:(lia)) as Hmod.
  assert (Hdiv : 0 <= seconds `div` 60 < 2 ^ 47).
  { split; [apply Z.div_pos; lia |].
    apply Z.div_lt_upper_bound; lia. }
  unfold number_to_string.
  rewrite !(proj2 (Z.leb_le _ _)) by lia. cbn.
  by rewrite two_digits_below_60.
Qed.

Lemma append_inj_length (s1 s2 t1 t2 : string) :
  String.length s1 = String.length s2 ->
  s1 +:+ t1 = s2 +:+ t2 -> s1 = s2 /\ t1 = t2.
Proof.
  revert s2. induction s1 as [|c s1 IH]; intros [|d s2]; cbn; try done.
  intros [= Hlen] [= -> Happ].
  destruct (IH s2 Hlen Happ) as [-> ->]. done.
Qed.

Lemma length_append (s t : string) :
  String.length (s +:+ t) = (String.length s + String.length t)%nat.
Proof. induction s as [|c s IH]; simpl; [done | by f_equal]. Qed.

Lemma two_digits_inj (r1 r2 : Z) :
  0 <= r1 < 60 -> 0 <= r2 < 60 -> two_digits r1 = two_digits r2 -> r1 = r2.
Proof.
  intros H1 H2 [= Htens Hunits].
  assert (Hd : forall r, 0 <= r < 60 ->
            (Z.to_N (r `div` 10) < 10)%N /\ (Z.to_N (r `mod` 10) < 10)%N
            /\ 0 <= r `div` 10 /\ 0 <= r `mod` 10).
  { intros r Hr.
    pose proof (Z.mod_pos_bound r 10 ltac:(lia)).
    pose proof (Z.div_pos r 10 ltac:(lia) ltac:(lia)).
    pose proof (Z.div_lt_upper_bound r 10 10 ltac:(lia) ltac:(lia)).
    lia. }
  destruct (Hd r1 H1) as (? & ? & ? & ?), (Hd r2 H2) as (? & ? & ? & ?).
  apply pretty_N_char_inj in Htens; [| done | done].
  apply pretty_N_char_inj in Hunits; [| done | done].
  apply Z2N.inj in Htens; [| done | done].
  apply Z2N.inj in Hunits; [| done | done].
  rewrite (Z.div_mod r1 10), (Z.div_mod r2 10) by lia. lia.
Qed.

(** X25. For a whole number of seconds from 0 to [2^47 - 1],
    [formatDuration] gives the minutes in decimal, a colon, and the
    remaining seconds on exactly two digits (padded with a zero below
    ten); two such durations that differ are rendered differently. *)
Theorem formatDuration_shape (seconds : Z) :
  0 <= seconds < 2 ^ 47 ->
  HomeScreen.formatDuration seconds
  = Some (pretty (seconds `div` 60) +:+ ":"
          +:+ two_digits (seconds `mod` 60))
  /\ (forall other, 0 <= other < 2 ^ 47 ->
        HomeScreen.formatDuration other = HomeScreen.formatDuration seconds ->
        other = seconds).
Proof.
  intros Hs. split; [by apply formatDuration_nonneg |].
  intros other Ho Heq.
  rewrite !formatDuration_nonneg in Heq by done.
  injection Heq as Heq.
  assert (Hlen : String.length (pretty (other `div` 60) +:+ ":"
                                +:+ two_digits (other `mod` 60))
                 = String.length (pretty (seconds `div` 60) +:+ ":"
                                  +:+ two_digits (seconds `mod` 60)))
    by (by rewrite Heq).
  rewrite !length_append in Hlen. cbn in Hlen.
  apply append_inj_length in Heq as [Hmin Hsec]; [| lia].
  apply (inj pretty) in Hmin. apply (inj (String.append ":")) in Hsec.
  apply two_digits_inj in Hsec;
    [| apply Z.mod_pos_bound; lia | apply Z.mod_pos_bound; lia].
  rewrite (Z.div_mod other 60), (Z.div_mod seconds 60) by lia. lia.
Qed.

Lemma formatDuration_shape_witness :
  HomeScreen.formatDuration 185 = Some "3:05"
  /\ forall other, 0 <= other < 2 ^ 47 ->
       HomeScreen.formatDuration other = HomeScreen.formatDuration 185 ->
       other = 185.
Proof.
  destruct (formatDuration_shape 185 ltac:(lia)) as (Hshape & Hinj).
  split; [| exact Hinj].
  rewrite Hshape. reflexivity.
Defined.

Lemma string_or_fallback_nonempty (s fallback : string) :
  fallback ≠ "" -> js_to_string (js_or (JStr s) (JStr fallback)) ≠ "".
Proof. intros Hf. unfold js_or. destruct s; simpl; [done | discriminate]. Qed.

(** X26. For a composition without audio file (absent or empty)
    [handlePlayComposition] only shows the alert [Audio Not Available]:
    the playback controller and the device player are untouched, nothing
    depends on the server or the player, and nothing is thrown. *)
Theorem play_without_audio_file (composition : HomeScreen.Composition)
    (reset_r add_r play_r : AudioContext.player_result)
    (record_r : axios_result jsval) (w : HomePlayer.State) :
  str_truthy (HomeScreen.audio_file composition) = false ->
  exists w',
    HomePlayer.handlePlayComposition composition reset_r add_r play_r
      record_r w = (Return tt, w')
    /\ HomePlayer.audio w' = HomePlayer.audio w
    /\ HomeScreen.compositions (HomePlayer.home w')
       = HomeScreen.compositions (HomePlayer.home w)
    /\ HomeScreen.alerts (HomePlayer.home w')
       = (HomeScreen.alerts (HomePlayer.home w)
          ++ [("Audio Not Available",
               "This composition does not have an audio file yet.")])%list.
Proof.
  intros Hfile. unfold HomePlayer.handlePlayComposition. eff_unfold.
  rewrite Hfile. destruct w as [[t cs al] a]. cbn.
  eexists. split; [reflexivity |]. by repeat split.
Qed.

Lemma play_without_audio_file_witness :
  exists w',
    HomePlayer.handlePlayComposition (Samples.composition 42 3 "Dawn")
      None None None (Rejected Samples.timed_out) Samples.player_screen
    = (Return tt, w')
    /\ HomePlayer.audio w' = Samples.idle.
Proof.
  destruct (play_without_audio_file (Samples.composition 42 3 "Dawn")
              None None None (Rejected Samples.timed_out)
              Samples.player_screen eq_refl) as (w' & Hrun & Haudio & _).
  exists w'. split; [exact Hrun | exact Haudio].
Defined.

(** X27. For a composition with an audio file [handlePlayComposition]
    never throws and leaves the playback controller as [playTrack] leaves
    it on the track built from the composition (its id in decimal, its
    audio file, title, author and duration). The screen shows an alert
    only when a token is present and recording the play is rejected: then
    it shows [Playback Error] with a non-empty message, also when the
    device is playing the track; without a token, or with the play
    recorded, the screen is unchanged even when the device failed. *)
Theorem play_with_audio_file (composition : HomeScreen.Composition)
    (reset_r add_r play_r : AudioContext.player_result)
    (record_r : axios_result jsval) (w : HomePlayer.State) :
  str_truthy (HomeScreen.audio_file composition) = true ->
  exists w',
    HomePlayer.handlePlayComposition composition reset_r add_r play_r
      record_r w = (Return tt, w')
    /\ HomePlayer.audio w'
       = snd (AudioContext.playTrack reset_r add_r play_r
                (track_of composition) (HomePlayer.audio w))
    /\ HomeScreen.compositions (HomePlayer.home w')
       = HomeScreen.compositions (HomePlayer.home w)
    /\ match record_r with
       | Rejected error =>
           if str_truthy (HomeScreen.token (HomePlayer.home w)) then
             exists msg,
               msg ≠ ""
               /\ HomeScreen.alerts (HomePlayer.home w')
                  = (HomeScreen.alerts (HomePlayer.home w)
                     ++ [("Playback Error", msg)])%list
           else HomePlayer.home w' = HomePlayer.home w
       | Resolved _ => HomePlayer.home w' = HomePlayer.home w
       end.
Proof.
  intros Hfile. unfold HomePlayer.handlePlayComposition. eff_unfold.
  rewrite Hfile. fold (track_of composition).
  destruct w as [[t cs al] a].
  unfold HomePlayer.useAudio, HomePlayer.useHome. cbn.
  assert (Hplay : fst (AudioContext.playTrack reset_r add_r play_r
                         (track_of composition) a) = Return tt).
  { destruct a as [c p l s r pl]. by destruct reset_r, add_r, play_r. }
  destruct (AudioContext.playTrack reset_r add_r play_r
              (track_of composition) a) as [o a'].
  cbn in Hplay. subst o. cbn.
  destruct (str_truthy t) eqn:Ht; cbn.
  - destruct record_r as [response | error]; cbn.
    + eexists. split; [reflexivity |]. by repeat split.
    + eexists. split; [reflexivity |]. cbn. repeat split.
      eexists. split; [| reflexivity].
      apply string_or_fallback_nonempty. discriminate.
  - eexists. split; [reflexivity |]. cbn. repeat split.
    by destruct record_r.
Qed.

Lemma play_with_audio_file_witness :
  exists w',
    HomePlayer.handlePlayComposition Samples.with_audio None None None
      (Rejected Samples.timed_out) Samples.player_screen = (Return tt, w')
    /\ AudioContext.currentTrack (HomePlayer.audio w')
       = Some (track_of Samples.with_audio)
    /\ HomeScreen.alerts (HomePlayer.home w')
       = [("Playback Error", "Network error - please check your connection")].
Proof.
  destruct (play_with_audio_file Samples.with_audio None None None
              (Rejected Samples.timed_out) Samples.player_screen eq_refl)
    as (w' & Hrun & Haudio & _).
  exists w'. split; [exact Hrun |]. split.
  - rewrite Haudio. reflexivity.
  - vm_compute in Hrun. injection Hrun as <-. reflexivity.
Defined.

(** X28. [handleLikeComposition] never throws, and when it does not reach
    a successful response it leaves every composition as it was: without
    a token (absent or empty) it shows [Authentication Required] whatever
    the server would answer, and with a token and a rejected request it
    shows [Error] with a non-empty message. *)
Theorem like_failure_keeps_counts (compositionId : Z)
    (like_r : axios_result jsval) (w : HomeScreen.State) :
  (str_truthy (HomeScreen.token w) = false ->
   HomeScreen.handleLikeComposition compositionId like_r w
   = (Return tt,
      {| HomeScreen.token := HomeScreen.token w;
         HomeScreen.compositions := HomeScreen.compositions w;
         HomeScreen.alerts :=
           (HomeScreen.alerts w
            ++ [("Authentication Required",
                 "Please log in to like compositions.")])%list |}))
  /\ (forall error,
        str_truthy (HomeScreen.token w) = true ->
        like_r = Rejected error ->
        exists msg,
          msg ≠ ""
          /\ HomeScreen.handleLikeComposition compositionId like_r w
             = (Return tt,
                {| HomeScreen.token := HomeScreen.token w;
                   HomeScreen.compositions := HomeScreen.compositions w;
                   HomeScreen.alerts :=
                     (HomeScreen.alerts w ++ [("Error", msg)])%list |})).
Proof.
  split.
  - intros Ht. unfold HomeScreen.handleLikeComposition. eff_unfold.
    by rewrite Ht.
  - intros error Ht ->. unfold HomeScreen.handleLikeComposition. eff_unfold.
    rewrite Ht. cbn. eexists. split; [| reflexivity].
    apply string_or_fallback_nonempty. discriminate.
Qed.

Lemma like_failure_keeps_counts_witness :
  HomeScreen.compositions
    (snd (HomeScreen.handleLikeComposition 42 (Rejected Samples.timed_out)
            Samples.home))
  = HomeScreen.compositions Samples.home.
Proof.
  destruct (proj2 (like_failure_keeps_counts 42 (Rejected Samples.timed_out)
                     Samples.home) Samples.timed_out eq_refl eq_refl)
    as (msg & _ & Hrun).
  by rewrite Hrun.
Defined.

(** X29. The user-loading effect of the web provider does nothing, and
    uses no result of a request, when there is no token in memory or a
    user is already set. Run with a token and no user on a profile
    request that succeeds, it sets a user whose [id] is [0] when the
    body carries no [id] and whose [username] is the empty string when
    the body carries no [username], and keeps token and store. *)
Theorem web_loadUser_defaults (profile : axios_result jsobj)
    (logout_r : axios_result jsval) (w : Auth.State) :
  (str_truthy (Auth.token w) = false \/ is_Some (Auth.user w) ->
   Auth.loadUser profile logout_r w = (Return tt, w))
  /\ (forall response,
        str_truthy (Auth.token w) = true -> Auth.user w = None ->
        profile = Resolved response ->
        exists w',
          Auth.loadUser profile logout_r w = (Return tt, w')
          /\ (data response !! "id" = None ->
              field "id" (Auth.user w') = JNum 0)
          /\ (data response !! "username" = None ->
              field "username" (Auth.user w') = JStr "")
          /\ field "profile" (Auth.user w') = JObj (data response)
          /\ Auth.token w' = Auth.token w
          /\ Auth.storage w' = Auth.storage w).
Proof.
  destruct w as [u t st]. unfold Auth.loadUser. eff_unfold. cbn. split.
  - intros [-> | [x ->]]; [done |]. cbn. by rewrite andb_false_r.
  - intros response -> -> ->. cbn.
    eexists. split; [reflexivity |]. cbn.
    repeat split; intros ->; reflexivity.
Qed.

Lemma web_loadUser_defaults_witness :
  exists w',
    Auth.loadUser (Resolved Samples.profile_bare) (Rejected Samples.timed_out)
      (Auth.mount {[ "auth_token" := "0ld" ]}) = (Return tt, w')
    /\ field "id" (Auth.user w') = JNum 0
    /\ field "username" (Auth.user w') = JStr "".
Proof.
  destruct (web_loadUser_defaults (Resolved Samples.profile_bare)
              (Rejected Samples.timed_out)
              (Auth.mount {[ "auth_token" := "0ld" ]})) as [_ Hload].
  destruct (Hload Samples.profile_bare) as (w' & Hrun & Hid & Hname & _);
    [reflexivity | reflexivity | reflexivity |].
  exists w'. split; [exact Hrun |].
  split; [by apply Hid | by apply Hname].
Defined.

(** X30. On mobile, a [login] from a session that has a user, whose
    login request succeeds with a non-empty token and whose profile
    request fails, throws and leaves an authenticated session made of the
    new token, in memory and persisted, and of the previous user. *)
Theorem login_half_failure_mixes_session
    (login_response : AxiosResponse LoginResponse) (error : AxiosError)
    (previous : jsobj) (w : AuthContext.State) :
  AuthContext.user w = Some previous ->
  resp_token (data login_response) ≠ "" ->
  exists e w',
    AuthContext.login (Resolved login_response) (Rejected error) w
    = (Throw e, w')
    /\ AuthContext.user w' = Some previous
    /\ AuthContext.token w' = Some (resp_token (data login_response))
    /\ AuthContext.storage w' !! "auth_token"
       = Some (resp_token (data login_response))
    /\ AuthContext.isAuthenticated w' = true.
Proof.
  intros Hu Htok. destruct w as [u t ld st]. cbn in Hu. subst u.
  do 2 eexists. split; [reflexivity |]. cbn.
  repeat split.
  - apply lookup_insert_eq.
  - unfold AuthContext.isAuthenticated. cbn.
    by destruct (resp_token (data login_response)).
Qed.

Lemma login_half_failure_mixes_session_witness :
  exists e w',
    AuthContext.login (Resolved Samples.login_ok) (Rejected Samples.timed_out)
      Samples.signed_in = (Throw e, w')
    /\ field "username" (AuthContext.user w') = JStr "ann"
    /\ AuthContext.token w' = Some "n3w"
    /\ AuthContext.isAuthenticated w' = true.
Proof.
  destruct (login_half_failure_mixes_session Samples.login_ok
              Samples.timed_out _ Samples.signed_in eq_refl
              ltac:(discriminate))
    as (e & w' & Hrun & Hu & Ht & _ & Hauth).
  exists e, w'. split; [exact Hrun |]. rewrite Hu. by repeat split.
Defined.
